(** * The image-optimisation endpoint of [server.js]

    A shallow embedding of [generateCacheKey] and of the
    [GET /optimize/:imageName] handler, with the parts of the JavaScript
    runtime, of [node:crypto], of [node:fs/promises] and of [sharp] that the
    handler relies on.
    The page routes and [loadPage] follow in module [Pages], with [vite]
    and the rendered modules as their surroundings.

    Conventions.
    - A JavaScript string is represented by the [string] of its UTF-8 bytes.
    - An integer-valued JavaScript Number is represented by the mathematical
      integer in [Z]; this is exact for magnitudes below [2^53], and the
      decimal rendering [Number_toString] is the one of JavaScript below
      [10^21].  [NaN] is the [None] of [option Z]. *)

From Stdlib Require Import ZArith List Ascii String DecimalString Lia Bool.
From Stdlib Require DecimalPos.
From stdpp Require Import base option list strings gmap.

Import ListNotations.
Local Open Scope string_scope.
Local Open Scope Z_scope.

(** ** JavaScript values reaching the handler *)

Module JS.

(** What [req.query.<name>] can hold: nothing, a string, or a non-string
    value built by the query parser (an array or a nested object), kept
    with the string that [ToString] renders for it. *)
Inductive value : Type :=
| Undefined
| Str (s : string)
| Obj (rendering : string).

(** [ToBoolean]: [undefined] and the empty string are falsy, every object
    is truthy. *)
Definition truthy (v : value) : bool :=
  match v with
  | Undefined => false
  | Str s => negb (String.eqb s "")
  | Obj _ => true
  end.

(** [ToString]. *)
Definition toString (v : value) : string :=
  match v with
  | Undefined => "undefined"
  | Str s => s
  | Obj r => r
  end.

(** [v || d] with a string default. *)
Definition or_str (v : value) (d : string) : value :=
  if truthy v then v else Str d.

(** [n || d] on Numbers: [NaN], [+0] and [-0] are falsy. *)
Definition or_num (n : option Z) (d : Z) : Z :=
  match n with
  | Some z => if z =? 0 then d else z
  | None => d
  end.

(** [Array.prototype.includes] on an array of strings: SameValueZero, so
    only a string equal to an element is found. *)
Definition includes (l : list string) (v : value) : bool :=
  match v with
  | Str s => existsb (String.eqb s) l
  | _ => false
  end.

(** [Number.prototype.toString] on an integer: decimal digits, with a
    leading minus sign for negatives.  This is what JavaScript prints for
    magnitudes below [10^21]; from there on it prints an exponent. *)
Definition Number_toString (z : Z) : string :=
  NilZero.string_of_int (Z.to_int z).

(** *** [Number.parseInt] with no radix argument

    The white space and line terminators that JavaScript skips: those of
    one byte, and in UTF-8 those of two bytes (U+00A0) and of three bytes
    (U+1680, U+2000 to U+200A, U+2028, U+2029, U+202F, U+205F, U+3000 and
    U+FEFF). *)

Definition isWhiteSpace (c : ascii) : bool :=
  let n := N_of_ascii c in
  ((9 <=? n) && (n <=? 13))%N || (n =? 32)%N.

(** Whether a byte can start a white space character of several bytes. *)
Definition startsWideSpace (c : ascii) : bool :=
  let n := N_of_ascii c in
  (n =? 194)%N || (n =? 225)%N || (n =? 226)%N || (n =? 227)%N || (n =? 239)%N.

Definition isWhiteSpace2 (c1 c2 : ascii) : bool :=
  (N_of_ascii c1 =? 194)%N && (N_of_ascii c2 =? 160)%N.

Definition isWhiteSpace3 (c1 c2 c3 : ascii) : bool :=
  let n1 := N_of_ascii c1 in
  let n2 := N_of_ascii c2 in
  let n3 := N_of_ascii c3 in
  ((n1 =? 225) && (n2 =? 154) && (n3 =? 128))%N
  || ((n1 =? 226) && (n2 =? 128)
      && (((128 <=? n3) && (n3 <=? 138)) || (n3 =? 168) || (n3 =? 169) || (n3 =? 175)))%N
  || ((n1 =? 226) && (n2 =? 129) && (n3 =? 159))%N
  || ((n1 =? 227) && (n2 =? 128) && (n3 =? 128))%N
  || ((n1 =? 239) && (n2 =? 187) && (n3 =? 191))%N.

Fixpoint trimStart (s : string) : string :=
  match s with
  | String c s1 =>
      if isWhiteSpace c then trimStart s1
      else if startsWideSpace c then
        match s1 with
        | String c2 s2 =>
            if isWhiteSpace2 c c2 then trimStart s2
            else
              match s2 with
              | String c3 s3 => if isWhiteSpace3 c c2 c3 then trimStart s3 else s
              | EmptyString => s
              end
        | EmptyString => s
        end
      else s
  | EmptyString => s
  end.

(** The value of [c] as a digit, when it is one in radix [R]. *)
Definition digitValue (R : Z) (c : ascii) : option Z :=
  let n := Z.of_N (N_of_ascii c) in
  let d :=
    if (48 <=? n) && (n <=? 57) then Some (n - 48)
    else if (97 <=? n) && (n <=? 122) then Some (n - 87)
    else if (65 <=? n) && (n <=? 90) then Some (n - 55)
    else None in
  match d with
  | Some v => if v <? R then Some v else None
  | None => None
  end.

(** The longest prefix of radix-[R] digits, read as a number; [acc] is
    [None] until a digit has been seen. *)
Fixpoint parseDigits (R : Z) (s : string) (acc : option Z) : option Z :=
  match s with
  | String c s' =>
      match digitValue R c with
      | Some d => parseDigits R s' (Some (R * default 0 acc + d))
      | None => acc
      end
  | EmptyString => acc
  end.

Definition stripSign (s : string) : Z * string :=
  match s with
  | String "-" s' => (-1, s')
  | String "+" s' => (1, s')
  | _ => (1, s)
  end.

Definition stripHexPrefix (s : string) : Z * string :=
  match s with
  | String "0" (String "x" s') => (16, s')
  | String "0" (String "X" s') => (16, s')
  | _ => (10, s)
  end.

(** The integer that the digits spell.  [Number.parseInt] returns the
    Number nearest to it, which is that integer when its magnitude is at
    most [2^53]. *)
Definition parseInt (v : value) : option Z :=
  let '(sign, s1) := stripSign (trimStart (toString v)) in
  let '(R, s2) := stripHexPrefix s1 in
  match parseDigits R s2 None with
  | Some m => Some (sign * m)
  | None => None
  end.

End JS.

(** ** [node:crypto]: the MD5 message digest (RFC 1321)

    [crypto.createHash("md5").update(s1)...update(sn).digest("hex")] is the
    digest of the concatenation of the UTF-8 bytes of [s1 .. sn], printed
    as 32 lowercase hexadecimal digits. *)

Module MD5.

Definition mask32 (x : Z) : Z := Z.land x 4294967295.
Definition add32 (x y : Z) : Z := mask32 (x + y).
Definition not32 (x : Z) : Z := Z.lxor x 4294967295.
Definition rotl32 (x c : Z) : Z :=
  mask32 (Z.lor (Z.shiftl x c) (Z.shiftr x (32 - c))).

Definition shifts : list Z :=
  [ 7; 12; 17; 22; 7; 12; 17; 22; 7; 12; 17; 22; 7; 12; 17; 22;
    5; 9; 14; 20; 5; 9; 14; 20; 5; 9; 14; 20; 5; 9; 14; 20;
    4; 11; 16; 23; 4; 11; 16; 23; 4; 11; 16; 23; 4; 11; 16; 23;
    6; 10; 15; 21; 6; 10; 15; 21; 6; 10; 15; 21; 6; 10; 15; 21 ].

(** [floor (2^32 * |sin (i + 1)|)] for [i = 0 .. 63]. *)
Definition sines : list Z :=
  [ 3614090360; 3905402710; 606105819; 3250441966;
    4118548399; 1200080426; 2821735955; 4249261313;
    1770035416; 2336552879; 4294925233; 2304563134;
    1804603682; 4254626195; 2792965006; 1236535329;
    4129170786; 3225465664; 643717713; 3921069994;
    3593408605; 38016083; 3634488961; 3889429448;
    568446438; 3275163606; 4107603335; 1163531501;
    2850285829; 4243563512; 1735328473; 2368359562;
    4294588738; 2272392833; 1839030562; 4259657740;
    2763975236; 1272893353; 4139469664; 3200236656;
    681279174; 3936430074; 3572445317; 76029189;
    3654602809; 3873151461; 530742520; 3299628645;
    4096336452; 1126891415; 2878612391; 4237533241;
    1700485571; 2399980690; 4293915773; 2240044497;
    1873313359; 4264355552; 2734768916; 1309151649;
    4149444226; 3174756917; 718787259; 3951481745 ].

Record state : Type := State { sa : Z; sb : Z; sc : Z; sd : Z }.

Definition init : state :=
  State 1732584193 4023233417 2562383102 271733878.

(** One of the 64 operations of a block; [m] holds its 16 words. *)
Definition step (m : list Z) (st : state) (i : nat) : state :=
  let '(State a b c d) := st in
  let iz := Z.of_nat i in
  let '(f, g) :=
    if iz <? 16 then
      (Z.lor (Z.land b c) (Z.land (not32 b) d), iz)
    else if iz <? 32 then
      (Z.lor (Z.land d b) (Z.land (not32 d) c), (5 * iz + 1) mod 16)
    else if iz <? 48 then
      (Z.lxor (Z.lxor b c) d, (3 * iz + 5) mod 16)
    else
      (Z.lxor c (Z.lor b (not32 d)), (7 * iz) mod 16) in
  let f' := add32 (add32 (add32 f a) (nth i sines 0)) (nth (Z.to_nat g) m 0) in
  State d (add32 b (rotl32 f' (nth i shifts 0))) b c.

Definition compress (st : state) (m : list Z) : state :=
  let '(State a b c d) := fold_left (step m) (seq 0 64) st in
  State (add32 (sa st) a) (add32 (sb st) b) (add32 (sc st) c) (add32 (sd st) d).

(** Little-endian bytes of a number, [n] of them. *)
Fixpoint le_bytes (n : nat) (x : Z) : list Z :=
  match n with
  | O => []
  | S n' => Z.land x 255 :: le_bytes n' (Z.shiftr x 8)
  end.

Fixpoint le_word (bs : list Z) : Z :=
  match bs with
  | [] => 0
  | b :: bs' => b + 256 * le_word bs'
  end.

(** The 16 words of a 64-byte block. *)
Definition words (block : list Z) : list Z :=
  map (fun k => le_word (firstn 4 (skipn (4 * k) block))) (seq 0 16).

Definition pad (msg : list Z) : list Z :=
  let len := Z.of_nat (length msg) in
  let zeros := Z.to_nat ((55 - len) mod 64) in
  msg ++ 128 :: repeat 0 zeros ++ le_bytes 8 (8 * len).

Fixpoint blocks (n : nat) (bs : list Z) (st : state) : state :=
  match n with
  | O => st
  | S n' => blocks n' (skipn 64 bs) (compress st (words (firstn 64 bs)))
  end.

Definition digest (msg : list Z) : list Z :=
  let p := pad msg in
  let '(State a b c d) := blocks (length p / 64) p init in
  le_bytes 4 a ++ le_bytes 4 b ++ le_bytes 4 c ++ le_bytes 4 d.

Definition hexDigit (x : Z) : ascii :=
  ascii_of_N (Z.to_N (if x <? 10 then 48 + x else 87 + x)).

Fixpoint hex (bs : list Z) : string :=
  match bs with
  | [] => EmptyString
  | b :: bs' => String (hexDigit (b / 16)) (String (hexDigit (b mod 16)) (hex bs'))
  end.

Fixpoint bytes (s : string) : list Z :=
  match s with
  | EmptyString => []
  | String c s' => Z.of_N (N_of_ascii c) :: bytes s'
  end.

Definition md5hex (s : string) : string := hex (digest (bytes s)).

End MD5.

(** ** [sharp]: a deferred image pipeline

    The calls [sharp(path)], [.resize(..)], [.png()], [.webp(..)] and
    [.jpeg(..)] only record what is to be done; the work happens in
    [.toBuffer()]. *)

Module Sharp.

Inductive Fit : Type := cover | contain | fill | inside | outside.

Record ResizeOptions : Type :=
  { fit : Fit; withoutEnlargement : bool }.

Inductive Output : Type :=
| png
| webp (quality : Z)
| jpeg (quality : Z).

Record Image : Type :=
  { input : string;
    resizeOp : option (Z * Z * ResizeOptions);
    output : option Output }.

Definition sharp (path : string) : Image :=
  {| input := path; resizeOp := None; output := None |}.

Definition resize (width height : Z) (o : ResizeOptions) (img : Image) : Image :=
  {| input := input img; resizeOp := Some (width, height, o); output := output img |}.

Definition toFormat (f : Output) (img : Image) : Image :=
  {| input := input img; resizeOp := resizeOp img; output := Some f |}.

(** [p / q] rounded to the nearest integer, for [q > 0]. *)
Definition roundDiv (p q : Z) : Z := (2 * p + q) / (2 * q).

(** Modelled from the spec: the geometry of [sharp]'s resize, which is
    not part of the repository.  The spec's transform step "resizes to fit
    within the width x height bounding box preserving aspect ratio, never
    enlarging beyond the source's native dimensions": a source of
    [W x H] pixels that already fits in the box [w x h] keeps its
    dimensions when enlargement is off; otherwise it is scaled by the
    smaller of [w / W] and [h / H], to at least one pixel. *)
Definition fitInside (noEnlarge : bool) (W H w h : Z) : Z * Z :=
  if noEnlarge && (W <=? w) && (H <=? h) then (W, H)
  else if w * H <=? h * W then (w, Z.max 1 (roundDiv (H * w) W))
  else (Z.max 1 (roundDiv (W * h) H), h).

(** The dimensions of the image a pipeline produces from a source of
    [W x H] pixels; only the [inside] fit is described by the spec. *)
Definition outputDimensions (W H : Z) (img : Image) : option (Z * Z) :=
  match resizeOp img with
  | None => Some (W, H)
  | Some (w, h, o) =>
      match fit o with
      | inside => Some (fitInside (withoutEnlargement o) W H w h)
      | _ => None
      end
  end.

End Sharp.

(** ** The server *)

Definition Buffer : Type := list Byte.byte.

(** What [res.send] was given. *)
Inductive Body : Type :=
| Text (s : string)
| Bytes (b : Buffer).

(** The [res] object of a request, as the handler changes it;
    [contentType] is the header when the handler has set it. *)
Record Res : Type :=
  { statusCode : Z;
    contentType : option string;
    sent : option Body }.

Definition freshRes : Res :=
  {| statusCode := 200; contentType := None; sent := None |}.

(** A rejected promise or thrown error. *)
Inductive Exception : Type :=
| ReadFailed (path : string)
| PipelineFailed (img : Sharp.Image)
| WriteFailed (path : string).

(** What a request does to its surroundings, in order. *)
Inductive Event : Type :=
| ReadFile (path : string)
| Pipeline (img : Sharp.Image)
| WriteFile (path : string) (data : Buffer)
| ConsoleError (e : Exception).

(** The surroundings of the process: the files by path, whether a write
    under [./cache] goes through (it does not when the directory is missing
    or may not be written to), and the effects so far. *)
Record World : Type :=
  { files : gmap string Buffer;
    cacheWritable : bool;
    trace : list Event }.

Record St : Type := { world : World; res : Res }.

(** *** Computations that change [St] and may throw *)

Definition M (A : Type) : Type := St -> (Exception + A) * St.

Definition ret {A} (a : A) : M A := fun st => (inr a, st).
Definition throw {A} (e : Exception) : M A := fun st => (inl e, st).
Definition bind {A B} (m : M A) (k : A -> M B) : M B :=
  fun st =>
    match m st with
    | (inr a, st') => k a st'
    | (inl e, st') => (inl e, st')
    end.
Definition try_catch {A} (body : M A) (handler : Exception -> M A) : M A :=
  fun st =>
    match body st with
    | (inr a, st') => (inr a, st')
    | (inl e, st') => handler e st'
    end.

Notation "'let!' x ':=' m 'in' k" := (bind m (fun x => k))
  (at level 10, x name, m at level 100, k at level 200, only parsing).
Notation "m ;; k" := (bind m (fun _ => k))
  (at level 100, k at level 200, right associativity, only parsing).

Definition emit (ev : Event) : M unit :=
  fun st =>
    let w := world st in
    (inr tt,
     {| world := {| files := files w; cacheWritable := cacheWritable w;
                    trace := trace w ++ [ev] |};
        res := res st |}).

Definition getFiles : M (gmap string Buffer) :=
  fun st => (inr (files (world st)), st).

(** [fs.readFile(path)]: rejected when there is no such file. *)
Definition fs_readFile (path : string) : M Buffer :=
  emit (ReadFile path) ;;
  let! fs := getFiles in
  match fs !! path with
  | Some data => ret data
  | None => throw (ReadFailed path)
  end.

(** [fs.writeFile(path, data)] for a path under [./cache]: the file is
    created or replaced, or the write is rejected when the file cannot be
    opened, and then nothing changes.  A write that fails after the file
    was opened, as on a full disk, can leave an empty or partial file; that
    failure is not modelled. *)
Definition fs_writeFile (path : string) (data : Buffer) : M unit :=
  emit (WriteFile path data) ;;
  fun st =>
    let w := world st in
    if cacheWritable w then
      (inr tt,
       {| world := {| files := <[path := data]> (files w);
                      cacheWritable := cacheWritable w; trace := trace w |};
          res := res st |})
    else (inl (WriteFailed path), st).

Definition console_error (e : Exception) : M unit := emit (ConsoleError e).

Definition res_status (code : Z) : M unit :=
  fun st =>
    (inr tt,
     {| world := world st;
        res := {| statusCode := code; contentType := contentType (res st);
                  sent := sent (res st) |} |}).

Definition res_set_ContentType (v : string) : M unit :=
  fun st =>
    (inr tt,
     {| world := world st;
        res := {| statusCode := statusCode (res st); contentType := Some v;
                  sent := sent (res st) |} |}).

Definition res_send (b : Body) : M unit :=
  fun st =>
    (inr tt,
     {| world := world st;
        res := {| statusCode := statusCode (res st);
                  contentType := contentType (res st); sent := Some b |} |}).

(** *** [generateCacheKey] *)

Definition generateCacheKey
    (originalName : string) (width height quality : Z) (format : string) : string :=
  let hash :=
    MD5.md5hex (originalName +:+ JS.Number_toString width
                  +:+ JS.Number_toString height +:+ JS.Number_toString quality
                  +:+ format) in
  hash +:+ "." +:+ format.

(** *** [GET /optimize/:imageName] *)

Record Request : Type :=
  { imageName : string;
    query_width : JS.value;
    query_height : JS.value;
    query_quality : JS.value;
    query_format : JS.value }.

Definition validFormats : list string := ["jpg"; "jpeg"; "png"; "webp"].

(** The [switch (format)] that picks the encoder. *)
Definition encoderFor (format : string) (quality : Z) : Sharp.Output :=
  if String.eqb format "png" then Sharp.png
  else if String.eqb format "webp" then Sharp.webp quality
  else Sharp.jpeg quality.

(** The pipeline the handler builds on a cache miss. *)
Definition buildImage
    (imageName : string) (width height quality : Z) (format : string) : Sharp.Image :=
  let image := Sharp.sharp ("./public/" +:+ imageName) in
  let image :=
    Sharp.resize width height
      {| Sharp.fit := Sharp.inside; Sharp.withoutEnlargement := true |} image in
  Sharp.toFormat (encoderFor format quality) image.

Section Handler.

(** [image.toBuffer()]: what [sharp] makes of a pipeline, given the files
    it can read; [None] when it fails (missing or undecodable source,
    rejected dimensions or quality). *)
Variable toBuffer : Sharp.Image -> gmap string Buffer -> option Buffer.

Definition image_toBuffer (img : Sharp.Image) : M Buffer :=
  emit (Pipeline img) ;;
  let! fs := getFiles in
  match toBuffer img fs with
  | Some data => ret data
  | None => throw (PipelineFailed img)
  end.

Definition optimize (req : Request) : M unit :=
  try_catch
    (let imageName := imageName req in
     let width := JS.or_num (JS.parseInt (query_width req)) 800 in
     let height := JS.or_num (JS.parseInt (query_height req)) 600 in
     let quality := JS.or_num (JS.parseInt (query_quality req)) 80 in
     let format := JS.or_str (query_format req) "jpg" in
     if negb (JS.includes validFormats format) then
       res_status 400 ;; res_send (Text "Invalid format")
     else
       let format := JS.toString format in
       let cacheKey := generateCacheKey imageName width height quality format in
       let cachePath := "./cache/" +:+ cacheKey in
       try_catch
         (let! cachedImage := fs_readFile cachePath in
          res_set_ContentType ("image/" +:+ format) ;;
          res_send (Bytes cachedImage))
         (fun err =>
            let image := buildImage imageName width height quality format in
            let! optimizedImageBuffer := image_toBuffer image in
            fs_writeFile cachePath optimizedImageBuffer ;;
            res_set_ContentType ("image/" +:+ format) ;;
            res_send (Bytes optimizedImageBuffer)))
    (fun error =>
       console_error error ;;
       res_status 500 ;;
       res_send (Text "Image processing error.")).

(** One request served in world [w]: the response and the world after. *)
Definition serve (req : Request) (w : World) : Res * World :=
  let st := snd (optimize req {| world := w; res := freshRes |}) in
  (res st, world st).

End Handler.

(** *** Names for what the handler computes from a request *)

Definition widthOf (req : Request) : Z :=
  JS.or_num (JS.parseInt (query_width req)) 800.
Definition heightOf (req : Request) : Z :=
  JS.or_num (JS.parseInt (query_height req)) 600.
Definition qualityOf (req : Request) : Z :=
  JS.or_num (JS.parseInt (query_quality req)) 80.
Definition formatOf (req : Request) : JS.value :=
  JS.or_str (query_format req) "jpg".
Definition cacheKeyOf (req : Request) : string :=
  generateCacheKey (imageName req) (widthOf req) (heightOf req) (qualityOf req)
    (JS.toString (formatOf req)).
Definition cachePathOf (req : Request) : string := "./cache/" +:+ cacheKeyOf req.
Definition imageOf (req : Request) : Sharp.Image :=
  buildImage (imageName req) (widthOf req) (heightOf req) (qualityOf req)
    (JS.toString (formatOf req)).
Definition contentTypeOf (req : Request) : string :=
  "image/" +:+ JS.toString (formatOf req).

(** The world [w] after the effects [evs]. *)
Definition after (w : World) (evs : list Event) : World :=
  {| files := files w; cacheWritable := cacheWritable w; trace := trace w ++ evs |}.

Definition stored (w : World) (path : string) (data : Buffer) : World :=
  {| files := <[path := data]> (files w); cacheWritable := cacheWritable w;
     trace := trace w |}.

Definition isPipeline (ev : Event) : bool :=
  match ev with Pipeline _ => true | _ => false end.
Definition isWrite (ev : Event) : bool :=
  match ev with WriteFile _ _ => true | _ => false end.
Definition isRead (ev : Event) : bool :=
  match ev with ReadFile _ | Pipeline _ => true | _ => false end.

(** How many times the transform pipeline was run in a trace. *)
Definition pipelineCalls (t : list Event) : nat := length (List.filter isPipeline t).
(** How many file writes were attempted in a trace. *)
Definition fileWrites (t : list Event) : nat := length (List.filter isWrite t).
(** How many file reads were attempted in a trace, the pipeline's read of
    its source included. *)
Definition fileReads (t : list Event) : nat := length (List.filter isRead t).

Definition invalidFormat : Res :=
  {| statusCode := 400; contentType := None; sent := Some (Text "Invalid format") |}.
Definition processingError : Res :=
  {| statusCode := 500; contentType := None;
     sent := Some (Text "Image processing error.") |}.
Definition served (req : Request) (data : Buffer) : Res :=
  {| statusCode := 200; contentType := Some (contentTypeOf req);
     sent := Some (Bytes data) |}.

(** The format is one of the four exact strings of [validFormats]. *)
Definition supported (v : JS.value) : Prop :=
  v = JS.Str "jpg" \/ v = JS.Str "jpeg" \/ v = JS.Str "png" \/ v = JS.Str "webp".

(** How a numeric query parameter [v] with default [d] ends up as [n]: the
    default when [parseInt] finds no number or finds zero, the number found
    otherwise. *)
Inductive defaulted (v : JS.value) (d : Z) : Z -> Prop :=
| defaulted_nan : JS.parseInt v = None -> defaulted v d d
| defaulted_zero : JS.parseInt v = Some 0 -> defaulted v d d
| defaulted_passed z : JS.parseInt v = Some z -> z <> 0 -> defaulted v d z.

(** ** Path resolution, as the operating system does it for [sharp] *)

Module Path.

Fixpoint segments (s : string) : list string :=
  match s with
  | EmptyString => [EmptyString]
  | String c s' =>
      if Ascii.eqb c "/" then EmptyString :: segments s'
      else match segments s' with
           | x :: xs => String c x :: xs
           | [] => [String c EmptyString]
           end
  end.

(** One segment applied to the directories walked so far, innermost
    first; [..] at the start of a relative path is kept. *)
Definition walk (stack : list string) (seg : string) : list string :=
  if String.eqb seg "" || String.eqb seg "." then stack
  else if String.eqb seg ".." then
    match stack with
    | [] => [".."]
    | top :: below => if String.eqb top ".." then seg :: stack else below
    end
  else seg :: stack.

(** The segments of a relative path once [.] and [..] are resolved. *)
Definition resolve (p : string) : list string :=
  rev (fold_left walk (segments p) []).

Fixpoint startsWith (dir p : list string) : bool :=
  match dir, p with
  | [], _ => true
  | d :: dir', x :: p' => String.eqb d x && startsWith dir' p'
  | _ :: _, [] => false
  end.

(** Whether the relative path [p] stays under the directory [dir]. *)
Definition inside (dir : list string) (p : string) : bool :=
  startsWith dir (resolve p).

(** Whether [name] has a [..] segment. *)
Definition hasTraversal (name : string) : bool :=
  existsb (String.eqb "..") (segments name).

End Path.

(** A stand-in for [sharp] used in examples: it hands back the bytes of the
    source file unchanged, and fails when there is none. *)
Definition copySource (img : Sharp.Image) (fs : gmap string Buffer) : option Buffer :=
  fs !! Sharp.input img.

(** ** [String.prototype.replace] with a string pattern

    The first occurrence of the pattern is replaced, and the replacement
    text is read for the patterns [$$], [$&], [$`] and [$']; with a string
    pattern there are no captures, so [$1] and the like stand for
    themselves. *)

Module JSString.

(** What is left of [s] after the prefix [pat], when it starts with it. *)
Fixpoint dropPrefix (pat s : string) : option string :=
  match pat, s with
  | EmptyString, _ => Some s
  | String a pat', String b s' => if Ascii.eqb a b then dropPrefix pat' s' else None
  | String _ _, EmptyString => None
  end.

(** The text before and after the first occurrence of [pat] in [s]. *)
Fixpoint splitFirst (pat s : string) : option (string * string) :=
  match dropPrefix pat s with
  | Some rest => Some (EmptyString, rest)
  | None =>
      match s with
      | EmptyString => None
      | String c s' =>
          match splitFirst pat s' with
          | Some (pre, post) => Some (String c pre, post)
          | None => None
          end
      end
  end.

Definition includes (pat s : string) : bool :=
  match splitFirst pat s with Some _ => true | None => false end.

(** [GetSubstitution] without captures. *)
Fixpoint expand (matched pre post r : string) : string :=
  match r with
  | EmptyString => EmptyString
  | String d t =>
      if Ascii.eqb d "$" then
        match t with
        | EmptyString => String d EmptyString
        | String c r' =>
            if Ascii.eqb c "$" then String "$" (expand matched pre post r')
            else if Ascii.eqb c "&" then matched +:+ expand matched pre post r'
            else if Ascii.eqb c "`" then pre +:+ expand matched pre post r'
            else if Ascii.eqb c "'" then post +:+ expand matched pre post r'
            else String d (expand matched pre post t)
        end
      else String d (expand matched pre post t)
  end.

Definition replace (pat r s : string) : string :=
  match splitFirst pat s with
  | Some (pre, post) => pre +:+ expand pat pre post r +:+ post
  | None => s
  end.

(** Whether a text has a dollar sign in it. *)
Fixpoint hasDollar (s : string) : bool :=
  match s with
  | EmptyString => false
  | String c s' => Ascii.eqb c "$" || hasDollar s'
  end.

(** Whether the character [c] occurs in [s]. *)
Fixpoint hasChar (c : ascii) (s : string) : bool :=
  match s with
  | EmptyString => false
  | String d s' => Ascii.eqb c d || hasChar c s'
  end.

End JSString.

(** ** Server-side rendering of the storefront pages

    [loadPage] and the routes that call it.  The development server
    [vite], the modules it loads and the file system are the surroundings:
    what they answer is a parameter, what the server asks of them is
    recorded. *)

Module Pages.

(** An error object; the server only looks at its [stack]. *)
Record Error : Type := { stack : string }.

(** What a [render] function returns: an object whose [head] and [html],
    strings when present, may be missing. *)
Record Fragment : Type := { head : option string; html : option string }.

(** The [params] object. *)
Definition Params : Type := list (string * string).

(** The [render] export of a module, applied to [url], [ssrManifest] and,
    when given, the page template and the route parameters.  It throws, or
    returns a fragment or [undefined]. *)
Definition Render : Type :=
  string -> option string -> option string -> option Params ->
  Error + option Fragment.

Record Env : Type :=
  { isProduction : bool;
    base : string;
    (** contents of the production manifest file *)
    manifestText : string;
    textFiles : gmap string string;
    (** the error [fs.readFile] rejects with for a path *)
    readError : string -> Error;
    (** the TypeError raised by a call of, or a property read on, [undefined] *)
    typeError : string -> Error;
    transformIndexHtml : string -> string -> Error + string;
    (** the module at a path, with its [render] export when it has one *)
    ssrLoadModule : string -> Error + option Render;
    (** [ssrFixStacktrace] rewrites the stack of the error it is given *)
    ssrFixStacktrace : Error -> Error }.

(** [ssrManifest]: read from the build in production, [undefined] otherwise. *)
Definition ssrManifest (env : Env) : option string :=
  if isProduction env then Some (manifestText env) else None.

Inductive Event : Type :=
| ReadText (path : string)
| TransformIndexHtml (url html : string)
| SsrLoadModule (path : string)
| RenderCall (url : string) (manifest : option string)
    (pageTemplate : option string) (params : option Params)
| FixStacktrace (e : Error)
| ConsoleLog (text : string).

Record St : Type := { trace : list Event; res : Res }.

Definition P (A : Type) : Type := St -> (Error + A) * St.

Definition ret {A} (a : A) : P A := fun st => (inr a, st).
Definition throw {A} (e : Error) : P A := fun st => (inl e, st).
Definition bind {A B} (m : P A) (k : A -> P B) : P B :=
  fun st =>
    match m st with
    | (inr a, st') => k a st'
    | (inl e, st') => (inl e, st')
    end.
Definition try_catch {A} (body : P A) (handler : Error -> P A) : P A :=
  fun st =>
    match body st with
    | (inr a, st') => (inr a, st')
    | (inl e, st') => handler e st'
    end.

Notation "'let*' x ':=' m 'in' k" := (bind m (fun x => k))
  (at level 10, x name, m at level 100, k at level 200, only parsing).

Definition emit (ev : Event) : P unit :=
  fun st => (inr tt, {| trace := trace st ++ [ev]; res := res st |}).

(** An answer of the surroundings, passed on or thrown. *)
Definition answer {A} (r : Error + A) : P A :=
  match r with
  | inr a => ret a
  | inl e => throw e
  end.

Definition setRes (f : Res -> Res) : P unit :=
  fun st => (inr tt, {| trace := trace st; res := f (res st) |}).

Definition res_status (code : Z) : P unit :=
  setRes (fun r => {| statusCode := code; contentType := contentType r; sent := sent r |}).
Definition res_set_ContentType (v : string) : P unit :=
  setRes (fun r => {| statusCode := statusCode r; contentType := Some v; sent := sent r |}).
(** [res.send] and [res.end] with a text. *)
Definition res_send (text : string) : P unit :=
  setRes (fun r => {| statusCode := statusCode r; contentType := contentType r;
                      sent := Some (Text text) |}).

Section Server.

Variable env : Env.

(** [fs.readFile(path, "utf-8")]. *)
Definition fs_readFile (path : string) : P string :=
  let* _ := emit (ReadText path) in
  match textFiles env !! path with
  | Some text => ret text
  | None => throw (readError env path)
  end.

Definition vite_transformIndexHtml (url html : string) : P string :=
  let* _ := emit (TransformIndexHtml url html) in
  answer (transformIndexHtml env url html).

Definition vite_ssrLoadModule (path : string) : P (option Render) :=
  let* _ := emit (SsrLoadModule path) in
  answer (ssrLoadModule env path).

(** The call [render(url, ssrManifest, ..)] of a [render] export. *)
Definition call (render : option Render) (url : string)
    (pageTemplate : option string) (params : option Params) : P (option Fragment) :=
  match render with
  | Some f =>
      let* _ := emit (RenderCall url (ssrManifest env) pageTemplate params) in
      answer (f url (ssrManifest env) pageTemplate params)
  | None => throw (typeError env "render is not a function")
  end.

(** [x.head ?? ""] and [x.html ?? ""]. *)
Definition headOrEmpty (x : option Fragment) : P string :=
  match x with
  | Some f => ret (default "" (head f))
  | None => throw (typeError env "Cannot read properties of undefined (reading 'head')")
  end.
Definition htmlOrEmpty (x : option Fragment) : P string :=
  match x with
  | Some f => ret (default "" (html f))
  | None => throw (typeError env "Cannot read properties of undefined (reading 'html')")
  end.

Definition loadPage (template originalUrl : string) (params : Params) : P unit :=
  let url := JSString.replace (base env) "" originalUrl in
  try_catch
    (if negb (isProduction env) then
       let* mainTemplate := fs_readFile "./index.html" in
       let* mainTemplate := vite_transformIndexHtml url mainTemplate in
       let* pageTemplate :=
         fs_readFile ("./src/edge-delivery/" +:+ template +:+ "/" +:+ template +:+ ".html") in
       let* pageTemplate := vite_transformIndexHtml url pageTemplate in
       let* render :=
         vite_ssrLoadModule
           ("./src/edge-delivery/" +:+ template +:+ "/" +:+ template +:+ ".js") in
       let* rendered := call render url (Some pageTemplate) (Some params) in
       let* headerModule :=
         vite_ssrLoadModule "./src/edge-delivery/blocks_ssr/header/header.js" in
       let* header := call headerModule url None None in
       let* footerModule :=
         vite_ssrLoadModule "./src/edge-delivery/blocks_ssr/footer/footer.js" in
       let* footer := call footerModule url None None in
       let* renderedHead := headOrEmpty rendered in
       let html := JSString.replace "<!--app-head-->" renderedHead mainTemplate in
       let* renderedHtml := htmlOrEmpty rendered in
       let html := JSString.replace "<!--app-html-->" renderedHtml html in
       let* headerHtml := htmlOrEmpty header in
       let html := JSString.replace "<!--app-header-->" headerHtml html in
       let* footerHtml := htmlOrEmpty footer in
       let html := JSString.replace "<!--app-footer-->" footerHtml html in
       let* _ := res_status 200 in
       let* _ := res_set_ContentType "text/html" in
       res_send html
     else
       let* _ := emit (ConsoleLog "Production Mode not implemented yet") in
       let* _ := res_status 500 in
       res_send "Production Mode not implemented yet")
    (fun e =>
       let* e :=
         (if isProduction env then ret e
          else let* _ := emit (FixStacktrace e) in ret (ssrFixStacktrace env e)) in
       let* _ := emit (ConsoleLog (stack e)) in
       let* _ := res_status 500 in
       res_send (stack e)).

(** [app.get("/")], [app.get("/p/:sku")] and [app.get("/c/:slug")]. *)
Definition homeRoute (originalUrl : string) : P unit :=
  loadPage "home" originalUrl [].
Definition productRoute (sku originalUrl : string) : P unit :=
  loadPage "product" originalUrl [("sku", sku)].
Definition categoryRoute (slug originalUrl : string) : P unit :=
  loadPage "product" originalUrl [("id", slug)].

(** The last [app.use]: no route matched. *)
Definition notFound : P unit :=
  let* _ := res_status 404 in
  res_send "Page not found".

(** A page request run from an empty trace: the response and what was
    asked of the surroundings. *)
Definition run (handler : P unit) : Res * list Event :=
  let st := snd (handler {| trace := []; res := freshRes |}) in
  (res st, trace st).

End Server.

(** The four substitutions of [loadPage], in its order. *)
Definition assemble (mainTemplate renderedHead renderedHtml headerHtml footerHtml : string)
  : string :=
  JSString.replace "<!--app-footer-->" footerHtml
    (JSString.replace "<!--app-header-->" headerHtml
       (JSString.replace "<!--app-html-->" renderedHtml
          (JSString.replace "<!--app-head-->" renderedHead mainTemplate))).

Definition isRead (ev : Event) : bool :=
  match ev with ReadText _ => true | _ => false end.

(** The paths of the files read and of the modules loaded in a trace. *)
Definition pathsAsked (t : list Event) : list string :=
  flat_map (fun ev => match ev with
                      | ReadText p => [p]
                      | SsrLoadModule p => [p]
                      | _ => []
                      end) t.

(** The urls that [vite] and the [render] functions were given in a trace. *)
Definition urlsGiven (t : list Event) : list string :=
  flat_map (fun ev => match ev with
                      | TransformIndexHtml u _ => [u]
                      | RenderCall u _ _ _ => [u]
                      | _ => []
                      end) t.

(** The manifests that [render] functions were given in a trace. *)
Definition manifestsGiven (t : list Event) : list (option string) :=
  flat_map (fun ev => match ev with
                      | RenderCall _ m _ _ => [m]
                      | _ => []
                      end) t.

(** The route parameters that [render] functions were given in a trace. *)
Definition paramsGiven (t : list Event) : list (option Params) :=
  flat_map (fun ev => match ev with
                      | RenderCall _ _ _ ps => [ps]
                      | _ => []
                      end) t.

End Pages.

(** ** Sample requests and worlds *)

Definition jpegBytes : Buffer := [Byte.xff; Byte.xd8; Byte.xff; Byte.xe0].
Definition passwdBytes : Buffer := [Byte.x72; Byte.x6f; Byte.x6f; Byte.x74; Byte.x3a].

Definition plainRequest (name : string) : Request :=
  {| imageName := name; query_width := JS.Undefined; query_height := JS.Undefined;
     query_quality := JS.Undefined; query_format := JS.Undefined |}.

Definition sizedRequest (name width height : string) : Request :=
  {| imageName := name; query_width := JS.Str width; query_height := JS.Str height;
     query_quality := JS.Undefined; query_format := JS.Undefined |}.

Definition formatRequest (name format : string) : Request :=
  {| imageName := name; query_width := JS.Undefined; query_height := JS.Undefined;
     query_quality := JS.Undefined; query_format := JS.Str format |}.

Definition pngRequest (name quality : string) : Request :=
  {| imageName := name; query_width := JS.Undefined; query_height := JS.Undefined;
     query_quality := JS.Str quality; query_format := JS.Str "png" |}.

(** A cold cache next to one source image. *)
Definition coldWorld : World :=
  {| files := {[ "./public/hero.jpg" := jpegBytes ]};
     cacheWritable := true; trace := [] |}.

(** The same, with a cache directory that refuses writes. *)
Definition unwritableCache : World :=
  {| files := {[ "./public/hero.jpg" := jpegBytes ]};
     cacheWritable := false; trace := [] |}.

(** A file outside [./public], reached through the path the handler builds
    for [imageName = ../../etc/passwd]. *)
Definition leakyWorld : World :=
  {| files := {[ "./public/../../etc/passwd" := passwdBytes ]};
     cacheWritable := true; trace := [] |}.

(** ** Vocabulary for effects and key shapes *)

(** The integers that a Number holds exactly, one by one, and that
    [toString] prints digit by digit. *)
Definition exactNumber (z : Z) : Prop := Z.abs z <= 2 ^ 53.

Definition isConsoleError (ev : Event) : bool :=
  match ev with ConsoleError _ => true | _ => false end.

(** Whether every character of [s] is a lowercase hexadecimal digit. *)
Fixpoint allHex (s : string) : bool :=
  match s with
  | EmptyString => true
  | String c s' => JSString.hasChar c "0123456789abcdef" && allHex s'
  end.

(** The cold cache after the default request for [hero.jpg] was served. *)
Definition warmWorld : World :=
  snd (serve copySource (plainRequest "hero.jpg") coldWorld).

(** A [sharp] that fails on everything. *)
Definition brokenSharp (img : Sharp.Image) (fs : gmap string Buffer) : option Buffer :=
  None.

(** ** A sample development server *)

Definition sampleIndex : string :=
  "<head><!--app-head--></head><body><!--app-header--><main><!--app-html--></main><!--app-footer--></body>".

Definition sampleProductRender : Pages.Render :=
  fun url manifest pageTemplate params =>
    inr (Some {| Pages.head := Some "<title>Product</title>";
                 Pages.html := pageTemplate |}).

Definition sampleHeaderRender : Pages.Render :=
  fun url manifest pageTemplate params =>
    inr (Some {| Pages.head := None; Pages.html := Some "<nav>Shop</nav>" |}).

Definition sampleFooterRender : Pages.Render :=
  fun url manifest pageTemplate params =>
    inr (Some {| Pages.head := None; Pages.html := Some "<small>Shop</small>" |}).

Definition sampleModules (path : string) : Pages.Error + option Pages.Render :=
  if String.eqb path "./src/edge-delivery/product/product.js"
  then inr (Some sampleProductRender)
  else if String.eqb path "./src/edge-delivery/blocks_ssr/header/header.js"
  then inr (Some sampleHeaderRender)
  else if String.eqb path "./src/edge-delivery/blocks_ssr/footer/footer.js"
  then inr (Some sampleFooterRender)
  else inl {| Pages.stack := "Error: failed to load " +:+ path |}.

(** A development server with an index page and a product template. *)
Definition sampleEnv : Pages.Env :=
  {| Pages.isProduction := false;
     Pages.base := "/";
     Pages.manifestText := "";
     Pages.textFiles :=
       {[ "./index.html" := sampleIndex;
          "./src/edge-delivery/product/product.html" := "<h1>Product</h1>" ]};
     Pages.readError := fun path => {| Pages.stack := "Error: ENOENT " +:+ path |};
     Pages.typeError := fun text => {| Pages.stack := "TypeError: " +:+ text |};
     Pages.transformIndexHtml := fun url html => inr html;
     Pages.ssrLoadModule := sampleModules;
     Pages.ssrFixStacktrace := fun e => e |}.

(** The same server started in production. *)
Definition sampleProduction : Pages.Env :=
  {| Pages.isProduction := true;
     Pages.base := Pages.base sampleEnv;
     Pages.manifestText := "{}";
     Pages.textFiles := Pages.textFiles sampleEnv;
     Pages.readError := Pages.readError sampleEnv;
     Pages.typeError := Pages.typeError sampleEnv;
     Pages.transformIndexHtml := Pages.transformIndexHtml sampleEnv;
     Pages.ssrLoadModule := Pages.ssrLoadModule sampleEnv;
     Pages.ssrFixStacktrace := Pages.ssrFixStacktrace sampleEnv |}.

(** * Properties *)

Example md5_empty : MD5.md5hex "" = "d41d8cd98f00b204e9800998ecf8427e".
Proof. vm_compute. reflexivity. Qed.
Example md5_abc : MD5.md5hex "abc" = "900150983cd24fb0d6963f7d28e17f72".
Proof. vm_compute. reflexivity. Qed.
Example md5_long :
  MD5.md5hex "aaaaaaaaaaaaaaaaaaaaaaaaaaaaaaaaaaaaaaaaaaaaaaaaaaaaaaaaaaaaaaaaaaaaaa"
  = "0f5c6c4e740bfcc08c3c26ccb2673d46".
Proof. vm_compute. reflexivity. Qed.

(** ** The handler, case by case *)

Section HandlerCases.

Variable toBuffer : Sharp.Image -> gmap string Buffer -> option Buffer.
Local Abbreviation serve := (serve toBuffer).

(** Runs the handler of [req] up to its first file access, given the
    outcome [Hf] of the format check. *)
Ltac enter_handler req Hf :=
  unfold serve, optimize, try_catch; fold (formatOf req);
  rewrite Hf; simpl;
  fold (widthOf req) (heightOf req) (qualityOf req) (cacheKeyOf req)
    (cachePathOf req) (imageOf req);
  unfold fs_readFile, image_toBuffer, fs_writeFile, bind, emit, getFiles; simpl.

(** Takes the branch that the equation [H] selects. *)
Ltac step_with H := rewrite H; simpl.

(** Closes a goal that differs by the nesting of the trace only. *)
Ltac same_world :=
  unfold served, processingError, stored, after, contentTypeOf; simpl;
  rewrite <- ?app_assoc; reflexivity.

(** The same when the write flag has been replaced by its value [H]. *)
Ltac same_world_with H :=
  unfold served, processingError, stored, after, contentTypeOf; simpl;
  rewrite H, <- ?app_assoc; reflexivity.

Lemma serve_invalid req w :
  JS.includes validFormats (formatOf req) = false ->
  serve req w = (invalidFormat, w).
Proof. intros Hf. enter_handler req Hf. by destruct w. Qed.

Lemma serve_hit req w data :
  JS.includes validFormats (formatOf req) = true ->
  files w !! cachePathOf req = Some data ->
  serve req w = (served req data, after w [ReadFile (cachePathOf req)]).
Proof. intros Hf Hhit. enter_handler req Hf. step_with Hhit. reflexivity. Qed.

Lemma serve_pipeline_failed req w :
  JS.includes validFormats (formatOf req) = true ->
  files w !! cachePathOf req = None ->
  toBuffer (imageOf req) (files w) = None ->
  serve req w =
    (processingError,
     after w [ReadFile (cachePathOf req); Pipeline (imageOf req);
              ConsoleError (PipelineFailed (imageOf req))]).
Proof.
  intros Hf Hmiss Hfail. enter_handler req Hf.
  step_with Hmiss. step_with Hfail. same_world.
Qed.

Lemma serve_write_failed req w data :
  JS.includes validFormats (formatOf req) = true ->
  files w !! cachePathOf req = None ->
  toBuffer (imageOf req) (files w) = Some data ->
  cacheWritable w = false ->
  serve req w =
    (processingError,
     after w [ReadFile (cachePathOf req); Pipeline (imageOf req);
              WriteFile (cachePathOf req) data;
              ConsoleError (WriteFailed (cachePathOf req))]).
Proof.
  intros Hf Hmiss Hok Hro. enter_handler req Hf.
  step_with Hmiss. step_with Hok. step_with Hro.
  same_world_with Hro.
Qed.

Lemma serve_miss req w data :
  JS.includes validFormats (formatOf req) = true ->
  files w !! cachePathOf req = None ->
  toBuffer (imageOf req) (files w) = Some data ->
  cacheWritable w = true ->
  serve req w =
    (served req data,
     stored (after w [ReadFile (cachePathOf req); Pipeline (imageOf req);
                      WriteFile (cachePathOf req) data])
       (cachePathOf req) data).
Proof.
  intros Hf Hmiss Hok Hrw. enter_handler req Hf.
  step_with Hmiss. step_with Hok. step_with Hrw.
  same_world_with Hrw.
Qed.

(** Nothing escapes the handler: whatever fails inside, it completes. *)
Lemma optimize_catches_everything req st :
  fst (optimize toBuffer req st) = inr tt.
Proof.
  unfold optimize, try_catch; fold (formatOf req).
  destruct (JS.includes validFormats (formatOf req)); simpl; [|reflexivity].
  fold (widthOf req) (heightOf req) (qualityOf req) (cacheKeyOf req)
    (cachePathOf req) (imageOf req).
  unfold fs_readFile, image_toBuffer, fs_writeFile, bind, emit, getFiles; simpl.
  destruct (files (world st) !! cachePathOf req); simpl; [reflexivity|].
  destruct (toBuffer (imageOf req) (files (world st))); simpl; [|reflexivity].
  destruct (cacheWritable (world st)); reflexivity.
Qed.

End HandlerCases.

(** ** Strings *)

Lemma append_cons c (s t : string) : String c s +:+ t = String c (s +:+ t).
Proof. reflexivity. Qed.

Lemma append_assoc (a b c : string) : (a +:+ b) +:+ c = a +:+ b +:+ c.
Proof.
  induction a as [|x a IH]; [reflexivity|].
  by rewrite !append_cons, IH.
Qed.

Lemma length_append (a b : string) :
  String.length (a +:+ b) = (String.length a + String.length b)%nat.
Proof.
  induction a as [|x a IH]; [reflexivity|].
  rewrite append_cons. simpl. by rewrite IH.
Qed.

(** ** Cache keys *)

(** The key is a function of the five fields alone. *)
Lemma generateCacheKey_deterministic n1 w1 h1 q1 f1 n2 w2 h2 q2 f2 :
  (n1, w1, h1, q1, f1) = (n2, w2, h2, q2, f2) ->
  generateCacheKey n1 w1 h1 q1 f1 = generateCacheKey n2 w2 h2 q2 f2.
Proof. by intros [= -> -> -> -> ->]. Qed.

(** The digest only sees the fields glued together: two requests whose
    fields concatenate to the same text, with the same format, share a key. *)
Lemma generateCacheKey_glued n1 w1 h1 q1 n2 w2 h2 q2 f :
  n1 +:+ JS.Number_toString w1 +:+ JS.Number_toString h1 +:+ JS.Number_toString q1
  = n2 +:+ JS.Number_toString w2 +:+ JS.Number_toString h2 +:+ JS.Number_toString q2 ->
  generateCacheKey n1 w1 h1 q1 f = generateCacheKey n2 w2 h2 q2 f.
Proof.
  intros Heq. unfold generateCacheKey.
  assert (Hglue : forall a b c d e : string,
             a +:+ b +:+ c +:+ d +:+ e = (a +:+ b +:+ c +:+ d) +:+ e).
  { intros a b c d e. by rewrite !append_assoc. }
  by rewrite !Hglue, Heq.
Qed.

(** C1: two requests for the same image that differ in width and height,
    12 x 3 against 1 x 23, get the same cache key, because the fields are
    fed to the digest with nothing between them; the claim that a
    difference in a field changes the key fails here whatever the digest
    is. *)
Theorem generateCacheKey_collision :
  (12, 3) <> (1, 23) /\
  generateCacheKey "hero.jpg" 12 3 80 "jpg" = generateCacheKey "hero.jpg" 1 23 80 "jpg".
Proof. split; [discriminate | by apply generateCacheKey_glued]. Qed.

(** ** Format validation *)

Lemma includes_supported v : JS.includes validFormats v = true <-> supported v.
Proof.
  unfold supported. destruct v as [|s|r]; simpl.
  - split; [discriminate | intros [?|[?|[?|?]]]; discriminate].
  - split.
    + intros H.
      repeat (apply orb_true_iff in H as [H|H];
              [apply String.eqb_eq in H; subst s; tauto|]).
      discriminate.
    + intros [H|[H|[H|H]]]; injection H as ->; reflexivity.
  - split; [discriminate | intros [?|[?|[?|?]]]; discriminate].
Qed.

Lemma includes_unsupported v : JS.includes validFormats v = false <-> ~ supported v.
Proof.
  rewrite <- includes_supported.
  destruct (JS.includes validFormats v); split; congruence.
Qed.

(** A present, non-empty format parameter is the format the handler
    validates; an absent or empty one is replaced by ["jpg"]. *)
Lemma formatOf_present req s :
  query_format req = JS.Str s -> s <> "" -> formatOf req = JS.Str s.
Proof.
  intros Hq Hs. unfold formatOf, JS.or_str. rewrite Hq. simpl.
  by apply String.eqb_neq in Hs as ->.
Qed.

Lemma formatOf_absent req :
  query_format req = JS.Undefined \/ query_format req = JS.Str "" ->
  formatOf req = JS.Str "jpg".
Proof. intros [Hq|Hq]; unfold formatOf, JS.or_str; by rewrite Hq. Qed.

Section HandlerProperties.

Variable toBuffer : Sharp.Image -> gmap string Buffer -> option Buffer.
Local Abbreviation serve := (serve toBuffer).

(** A request with a supported format is answered 200 or 500. *)
Lemma serve_supported_status req w :
  JS.includes validFormats (formatOf req) = true ->
  statusCode (fst (serve req w)) = 200 \/ statusCode (fst (serve req w)) = 500.
Proof.
  intros Hf.
  destruct (files w !! cachePathOf req) as [data|] eqn:Hc.
  { rewrite (serve_hit toBuffer req w data Hf Hc). by left. }
  destruct (toBuffer (imageOf req) (files w)) as [data|] eqn:Hp.
  2: { rewrite (serve_pipeline_failed toBuffer req w Hf Hc Hp). by right. }
  destruct (cacheWritable w) eqn:Hw.
  - rewrite (serve_miss toBuffer req w data Hf Hc Hp Hw). by left.
  - rewrite (serve_write_failed toBuffer req w data Hf Hc Hp Hw). by right.
Qed.

(** C5: a request whose format is not one of jpg, jpeg, png, webp is
    answered with status 400 and leaves the world as it was: no file is
    written, no cache entry appears and the pipeline is not run. *)
Theorem unsupported_format_rejected req w :
  ~ supported (formatOf req) ->
  statusCode (fst (serve req w)) = 400 /\
  sent (fst (serve req w)) = Some (Text "Invalid format") /\
  files (snd (serve req w)) = files w /\
  fileWrites (trace (snd (serve req w))) = fileWrites (trace w) /\
  pipelineCalls (trace (snd (serve req w))) = pipelineCalls (trace w) /\
  trace (snd (serve req w)) = trace w.
Proof.
  intros Hf%includes_unsupported. by rewrite (serve_invalid toBuffer req w Hf).
Qed.

(** C10: the handler answers 400 exactly when the format it validates is
    not one of the four lowercase strings jpg, jpeg, png, webp; the test
    is string equality, so other spellings are not supported. *)
Theorem status_400_iff_unsupported req w :
  statusCode (fst (serve req w)) = 400 <-> ~ supported (formatOf req).
Proof.
  split.
  - intros H400 Hs%includes_supported.
    destruct (serve_supported_status req w Hs) as [H|H]; rewrite H in H400; discriminate.
  - intros Hf%includes_unsupported. by rewrite (serve_invalid toBuffer req w Hf).
Qed.

End HandlerProperties.

Lemma unsupported_format_rejected_witness :
  statusCode (fst (serve copySource (formatRequest "hero.jpg" "bmp") coldWorld)) = 400 /\
  sent (fst (serve copySource (formatRequest "hero.jpg" "bmp") coldWorld))
    = Some (Text "Invalid format") /\
  files (snd (serve copySource (formatRequest "hero.jpg" "bmp") coldWorld))
    = files coldWorld /\
  fileWrites (trace (snd (serve copySource (formatRequest "hero.jpg" "bmp") coldWorld)))
    = fileWrites (trace coldWorld) /\
  pipelineCalls (trace (snd (serve copySource (formatRequest "hero.jpg" "bmp") coldWorld)))
    = pipelineCalls (trace coldWorld) /\
  trace (snd (serve copySource (formatRequest "hero.jpg" "bmp") coldWorld))
    = trace coldWorld.
Proof.
  apply (unsupported_format_rejected copySource (formatRequest "hero.jpg" "bmp") coldWorld).
  intros [H|[H|[H|H]]]; discriminate H.
Defined.

(** Uppercase and mixed-case spellings are rejected. *)
Example uppercase_JPG_rejected :
  statusCode (fst (serve copySource (formatRequest "hero.jpg" "JPG") coldWorld)) = 400.
Proof. vm_compute. reflexivity. Qed.

Example mixed_case_Png_rejected :
  statusCode (fst (serve copySource (formatRequest "hero.jpg" "Png") coldWorld)) = 400.
Proof. vm_compute. reflexivity. Qed.

(** An empty format parameter is falsy and falls back to jpg. *)
Example empty_format_defaults :
  fst (serve copySource (formatRequest "hero.jpg" "") coldWorld)
  = {| statusCode := 200; contentType := Some "image/jpg";
       sent := Some (Bytes jpegBytes) |}.
Proof. vm_compute. reflexivity. Qed.

(** ** Cache population *)

Lemma pipelineCalls_app t1 t2 :
  pipelineCalls (t1 ++ t2) = (pipelineCalls t1 + pipelineCalls t2)%nat.
Proof. unfold pipelineCalls. by rewrite List.filter_app, length_app. Qed.

Lemma fileWrites_app t1 t2 :
  fileWrites (t1 ++ t2) = (fileWrites t1 + fileWrites t2)%nat.
Proof. unfold fileWrites. by rewrite List.filter_app, length_app. Qed.

Section CachePopulation.

Variable toBuffer : Sharp.Image -> gmap string Buffer -> option Buffer.
Local Abbreviation serve := (serve toBuffer).

(** A request answered 200 leaves the bytes it sent under its cache
    path. *)
Lemma served_is_cached req w :
  statusCode (fst (serve req w)) = 200 ->
  exists data,
    fst (serve req w) = served req data /\
    files (snd (serve req w)) !! cachePathOf req = Some data /\
    JS.includes validFormats (formatOf req) = true.
Proof.
  intros H200.
  destruct (JS.includes validFormats (formatOf req)) eqn:Hf.
  2: { rewrite (serve_invalid toBuffer req w Hf) in H200. discriminate. }
  destruct (files w !! cachePathOf req) as [data|] eqn:Hc.
  { rewrite (serve_hit toBuffer req w data Hf Hc). by exists data. }
  destruct (toBuffer (imageOf req) (files w)) as [data|] eqn:Hp.
  2: { rewrite (serve_pipeline_failed toBuffer req w Hf Hc Hp) in H200. discriminate. }
  destruct (cacheWritable w) eqn:Hw.
  2: { rewrite (serve_write_failed toBuffer req w data Hf Hc Hp Hw) in H200.
       discriminate. }
  rewrite (serve_miss toBuffer req w data Hf Hc Hp Hw). exists data.
  repeat split. simpl. apply lookup_insert_eq.
Qed.

(** C2: when a request has been answered 200, the bytes it sent are in
    the cache under its cache path, and the same request made again, on the
    files the first one left, is answered from that entry: status 200, the
    same bytes and content type, one read of the cache file and nothing
    else, so the pipeline is not run and no file is written. *)
Theorem repeated_request_served_from_cache req w w' :
  statusCode (fst (serve req w)) = 200 ->
  files w' = files (snd (serve req w)) ->
  (exists data,
     files w' !! cachePathOf req = Some data /\
     fst (serve req w) = served req data /\
     fst (serve req w') = served req data /\
     sent (fst (serve req w')) = Some (Bytes data)) /\
  snd (serve req w') = after w' [ReadFile (cachePathOf req)] /\
  sent (fst (serve req w')) = sent (fst (serve req w)) /\
  statusCode (fst (serve req w')) = 200 /\
  contentType (fst (serve req w')) = contentType (fst (serve req w)) /\
  pipelineCalls (trace (snd (serve req w'))) = pipelineCalls (trace w') /\
  fileWrites (trace (snd (serve req w'))) = fileWrites (trace w').
Proof.
  intros H200 Hfiles.
  destruct (served_is_cached req w H200) as (data & Hres & Hcached & Hf).
  rewrite <- Hfiles in Hcached.
  rewrite (serve_hit toBuffer req w' data Hf Hcached), Hres. simpl.
  rewrite pipelineCalls_app, fileWrites_app.
  change (pipelineCalls [ReadFile (cachePathOf req)]) with 0%nat.
  change (fileWrites [ReadFile (cachePathOf req)]) with 0%nat.
  split; [by exists data|]. repeat split; lia.
Qed.

(** When the first answer is not 200 but the format is supported, the
    request made again runs the pipeline again: nothing was cached. *)
Lemma failed_request_not_cached req w :
  JS.includes validFormats (formatOf req) = true ->
  statusCode (fst (serve req w)) <> 200 ->
  files (snd (serve req w)) = files w /\
  pipelineCalls (trace (snd (serve req (snd (serve req w)))))
  = S (pipelineCalls (trace (snd (serve req w)))).
Proof.
  intros Hf Hne.
  destruct (files w !! cachePathOf req) as [data|] eqn:Hc.
  { rewrite (serve_hit toBuffer req w data Hf Hc) in Hne. by destruct Hne. }
  destruct (toBuffer (imageOf req) (files w)) as [data|] eqn:Hp.
  2: { rewrite (serve_pipeline_failed toBuffer req w Hf Hc Hp).
       split; [reflexivity|]. cbn [fst snd].
       match goal with
       | |- context [serve req ?w1] =>
           rewrite (serve_pipeline_failed toBuffer req w1 Hf Hc Hp)
       end.
       cbn [fst snd after trace]. rewrite !pipelineCalls_app.
       change (pipelineCalls [ReadFile _; Pipeline _; ConsoleError _]) with 1%nat.
       lia. }
  destruct (cacheWritable w) eqn:Hw.
  { rewrite (serve_miss toBuffer req w data Hf Hc Hp Hw) in Hne. by destruct Hne. }
  rewrite (serve_write_failed toBuffer req w data Hf Hc Hp Hw).
  split; [reflexivity|]. cbn [fst snd].
  match goal with
  | |- context [serve req ?w1] =>
      rewrite (serve_write_failed toBuffer req w1 data Hf Hc Hp Hw)
  end.
  cbn [fst snd after trace]. rewrite !pipelineCalls_app.
  change (pipelineCalls [ReadFile _; Pipeline _; WriteFile _ _; ConsoleError _])
    with 1%nat.
  lia.
Qed.

(** C3, as the code has it: when the pipeline succeeds on a cache miss
    and the cache write fails, the answer is status 500 with the text
    "Image processing error.", the computed bytes are not sent, and the
    write error is the last thing logged. *)
Theorem cache_write_failure_is_500 req w data :
  supported (formatOf req) ->
  files w !! cachePathOf req = None ->
  toBuffer (imageOf req) (files w) = Some data ->
  cacheWritable w = false ->
  statusCode (fst (serve req w)) = 500 /\
  sent (fst (serve req w)) = Some (Text "Image processing error.") /\
  last (trace (snd (serve req w)))
  = Some (ConsoleError (WriteFailed (cachePathOf req))).
Proof.
  intros Hf%includes_supported Hc Hp Hw.
  rewrite (serve_write_failed toBuffer req w data Hf Hc Hp Hw). simpl.
  repeat split.
  match goal with
  | |- last (?t ++ [?a; ?b; ?c; ?d])%list = _ =>
      change (t ++ [a; b; c; d])%list with (t ++ [a; b; c] ++ [d])%list
  end.
  rewrite app_assoc. apply last_snoc.
Qed.

End CachePopulation.

Lemma repeated_request_served_from_cache_witness :
  let w1 := snd (serve copySource (plainRequest "hero.jpg") coldWorld) in
  (exists data,
     files w1 !! cachePathOf (plainRequest "hero.jpg") = Some data /\
     fst (serve copySource (plainRequest "hero.jpg") coldWorld)
     = served (plainRequest "hero.jpg") data /\
     fst (serve copySource (plainRequest "hero.jpg") w1)
     = served (plainRequest "hero.jpg") data /\
     sent (fst (serve copySource (plainRequest "hero.jpg") w1)) = Some (Bytes data)) /\
  snd (serve copySource (plainRequest "hero.jpg") w1)
  = after w1 [ReadFile (cachePathOf (plainRequest "hero.jpg"))] /\
  sent (fst (serve copySource (plainRequest "hero.jpg") w1))
  = sent (fst (serve copySource (plainRequest "hero.jpg") coldWorld)) /\
  statusCode (fst (serve copySource (plainRequest "hero.jpg") w1)) = 200 /\
  contentType (fst (serve copySource (plainRequest "hero.jpg") w1))
  = contentType (fst (serve copySource (plainRequest "hero.jpg") coldWorld)) /\
  pipelineCalls (trace (snd (serve copySource (plainRequest "hero.jpg") w1)))
  = pipelineCalls (trace w1) /\
  fileWrites (trace (snd (serve copySource (plainRequest "hero.jpg") w1)))
  = fileWrites (trace w1).
Proof.
  apply (repeated_request_served_from_cache copySource (plainRequest "hero.jpg") coldWorld).
  - vm_compute. reflexivity.
  - reflexivity.
Defined.

(** C3 fails on the code: with a pipeline that succeeds and a cache
    directory that refuses the write, the client gets status 500 and an
    error text instead of the image. *)
Lemma cache_write_failure_not_served :
  copySource (imageOf (plainRequest "hero.jpg")) (files unwritableCache) = Some jpegBytes /\
  fst (serve copySource (plainRequest "hero.jpg") unwritableCache)
  = {| statusCode := 500; contentType := None;
       sent := Some (Text "Image processing error.") |}.
Proof. split; vm_compute; reflexivity. Qed.

Lemma cache_write_failure_is_500_witness :
  statusCode (fst (serve copySource (plainRequest "hero.jpg") unwritableCache)) = 500 /\
  sent (fst (serve copySource (plainRequest "hero.jpg") unwritableCache))
  = Some (Text "Image processing error.") /\
  last (trace (snd (serve copySource (plainRequest "hero.jpg") unwritableCache)))
  = Some (ConsoleError (WriteFailed (cachePathOf (plainRequest "hero.jpg")))).
Proof.
  apply (cache_write_failure_is_500 copySource (plainRequest "hero.jpg") unwritableCache jpegBytes).
  - left. reflexivity.
  - vm_compute. reflexivity.
  - vm_compute. reflexivity.
  - reflexivity.
Defined.

(** ** The source path *)

Section SourcePath.

Variable toBuffer : Sharp.Image -> gmap string Buffer -> option Buffer.
Local Abbreviation serve := (serve toBuffer).

(** The effects of a request with a supported format start with the
    cache read; on a miss the pipeline comes next. *)
Lemma serve_supported_trace req w :
  JS.includes validFormats (formatOf req) = true ->
  exists rest,
    trace (snd (serve req w))
    = (trace w ++ ReadFile (cachePathOf req) :: rest)%list /\
    (files w !! cachePathOf req = None ->
     exists rest', rest = Pipeline (imageOf req) :: rest').
Proof.
  intros Hf.
  destruct (files w !! cachePathOf req) as [data|] eqn:Hc.
  { rewrite (serve_hit toBuffer req w data Hf Hc). by eexists. }
  destruct (toBuffer (imageOf req) (files w)) as [data|] eqn:Hp.
  2: { rewrite (serve_pipeline_failed toBuffer req w Hf Hc Hp).
       eexists. split; [reflexivity|]. by eexists. }
  destruct (cacheWritable w) eqn:Hw.
  - rewrite (serve_miss toBuffer req w data Hf Hc Hp Hw).
    eexists. split; [reflexivity|]. by eexists.
  - rewrite (serve_write_failed toBuffer req w data Hf Hc Hp Hw).
    eexists. split; [reflexivity|]. by eexists.
Qed.

(** C4, as the code has it: the handler never looks into imageName.
    Whatever the name, a request with a supported format first attempts
    the cache read and, on a miss, runs the pipeline on the path
    ./public/ followed by the name as received. *)
Theorem imageName_used_verbatim req w :
  supported (formatOf req) ->
  Sharp.input (imageOf req) = "./public/" +:+ imageName req /\
  exists rest,
    trace (snd (serve req w))
    = (trace w ++ ReadFile (cachePathOf req) :: rest)%list /\
    (files w !! cachePathOf req = None ->
     exists rest', rest = Pipeline (imageOf req) :: rest').
Proof.
  intros Hf%includes_supported. split; [reflexivity|].
  by apply serve_supported_trace.
Qed.

End SourcePath.

(** C4 fails on the code: the name ../../etc/passwd has a traversal
    segment, the path built from it leaves ./public, and the request is
    not rejected: the cache is read, the pipeline is run on that path and
    its bytes are sent with status 200. *)
Lemma traversal_not_rejected :
  Path.hasTraversal "../../etc/passwd" = true /\
  Sharp.input (imageOf (plainRequest "../../etc/passwd")) = "./public/../../etc/passwd" /\
  Path.resolve "./public/../../etc/passwd" = [".."; "etc"; "passwd"] /\
  Path.inside ["public"] "./public/../../etc/passwd" = false /\
  fst (serve copySource (plainRequest "../../etc/passwd") leakyWorld)
  = {| statusCode := 200; contentType := Some "image/jpg";
       sent := Some (Bytes passwdBytes) |} /\
  fileReads (trace (snd (serve copySource (plainRequest "../../etc/passwd") leakyWorld)))
  = 2%nat /\
  trace (snd (serve copySource (plainRequest "../../etc/passwd") leakyWorld))
  = [ ReadFile "./cache/8f48a23f448d576e3544cd27dd6bf978.jpg";
      Pipeline (imageOf (plainRequest "../../etc/passwd"));
      WriteFile "./cache/8f48a23f448d576e3544cd27dd6bf978.jpg" passwdBytes ].
Proof. repeat split; vm_compute; (reflexivity || discriminate). Qed.

Lemma imageName_used_verbatim_witness :
  Sharp.input (imageOf (plainRequest "../../etc/passwd"))
  = "./public/" +:+ imageName (plainRequest "../../etc/passwd") /\
  exists rest,
    trace (snd (serve copySource (plainRequest "../../etc/passwd") leakyWorld))
    = (trace leakyWorld
         ++ ReadFile (cachePathOf (plainRequest "../../etc/passwd")) :: rest)%list /\
    (files leakyWorld !! cachePathOf (plainRequest "../../etc/passwd") = None ->
     exists rest', rest = Pipeline (imageOf (plainRequest "../../etc/passwd")) :: rest').
Proof.
  apply (imageName_used_verbatim copySource (plainRequest "../../etc/passwd") leakyWorld).
  left. reflexivity.
Defined.

(** ** jpg and jpeg *)

Lemma le_bytes_length n x : length (MD5.le_bytes n x) = n.
Proof. revert x. induction n as [|n IH]; intros x; simpl; [done|by rewrite IH]. Qed.

Lemma digest_length msg : length (MD5.digest msg) = 16%nat.
Proof.
  unfold MD5.digest.
  destruct (MD5.blocks _ _ _) as [a b c d].
  by rewrite !length_app, !le_bytes_length.
Qed.

Lemma hex_length bs : String.length (MD5.hex bs) = (2 * length bs)%nat.
Proof. induction bs as [|b bs IH]; simpl; [done|]. rewrite IH. lia. Qed.

(** The digest is printed as 32 characters. *)
Lemma md5hex_length s : String.length (MD5.md5hex s) = 32%nat.
Proof. unfold MD5.md5hex. by rewrite hex_length, digest_length. Qed.

(** A key is 33 characters and the format. *)
Lemma generateCacheKey_length n w h q f :
  String.length (generateCacheKey n w h q f) = (33 + String.length f)%nat.
Proof.
  unfold generateCacheKey. rewrite !length_append, md5hex_length. simpl. lia.
Qed.



(** ** Numeric parameters *)

Lemma or_num_defaulted v d : defaulted v d (JS.or_num (JS.parseInt v) d).
Proof.
  unfold JS.or_num. destruct (JS.parseInt v) as [z|] eqn:Hp.
  - destruct (Z.eqb_spec z 0) as [->|Hz].
    + by apply defaulted_zero.
    + by apply defaulted_passed.
  - by apply defaulted_nan.
Qed.

(** The default is used exactly when [parseInt] finds no number, finds
    zero, or finds the default itself. *)
Lemma or_num_default_iff v d :
  JS.or_num (JS.parseInt v) d = d <->
  JS.parseInt v = None \/ JS.parseInt v = Some 0 \/ JS.parseInt v = Some d.
Proof.
  unfold JS.or_num. destruct (JS.parseInt v) as [z|].
  - destruct (Z.eqb_spec z 0) as [->|Hz].
    + split; auto.
    + split; [intros ->; auto|]. intros [?|[?|?]]; congruence.
  - split; auto.
Qed.

Section NumericParameters.

Variable toBuffer : Sharp.Image -> gmap string Buffer -> option Buffer.
Local Abbreviation serve := (serve toBuffer).

(** C7, as the code has it: width, height and quality take the defaults
    800, 600 and 80 when [parseInt] finds no number in the parameter
    (absent, or not starting with a number) or finds zero; every other
    number found, negative or huge, reaches the pipeline as it is: on a
    cache miss the pipeline resizes to that width and height and, for
    jpg, jpeg and webp, encodes at that quality. *)
Theorem numeric_parameters_defaulted_or_passed req w :
  supported (formatOf req) ->
  files w !! cachePathOf req = None ->
  exists width height quality,
    defaulted (query_width req) 800 width /\
    defaulted (query_height req) 600 height /\
    defaulted (query_quality req) 80 quality /\
    In (Pipeline
          {| Sharp.input := "./public/" +:+ imageName req;
             Sharp.resizeOp :=
               Some (width, height,
                     {| Sharp.fit := Sharp.inside; Sharp.withoutEnlargement := true |});
             Sharp.output :=
               Some (encoderFor (JS.toString (formatOf req)) quality) |})
       (trace (snd (serve req w))).
Proof.
  intros Hf%includes_supported Hc.
  exists (widthOf req), (heightOf req), (qualityOf req).
  repeat split; try apply or_num_defaulted.
  destruct (serve_supported_trace toBuffer req w Hf) as (rest & -> & Hrest).
  destruct (Hrest Hc) as (rest' & ->).
  apply in_or_app. right. right. left. reflexivity.
Qed.

End NumericParameters.

(** C7 fails on the code: width=0 is a number, yet the pipeline is given
    the default 800, and height=0 likewise 600. *)
Lemma zero_is_replaced_by_default :
  JS.parseInt (JS.Str "0") = Some 0 /\
  widthOf (sizedRequest "hero.jpg" "0" "0") = 800 /\
  heightOf (sizedRequest "hero.jpg" "0" "0") = 600 /\
  Sharp.resizeOp (imageOf (sizedRequest "hero.jpg" "0" "0"))
  = Some (800, 600, {| Sharp.fit := Sharp.inside; Sharp.withoutEnlargement := true |}).
Proof. repeat split; vm_compute; reflexivity. Qed.

Lemma numeric_parameters_defaulted_or_passed_witness :
  exists width height quality,
    defaulted (query_width (sizedRequest "hero.jpg" "-5" "0")) 800 width /\
    defaulted (query_height (sizedRequest "hero.jpg" "-5" "0")) 600 height /\
    defaulted (query_quality (sizedRequest "hero.jpg" "-5" "0")) 80 quality /\
    In (Pipeline
          {| Sharp.input := "./public/" +:+ imageName (sizedRequest "hero.jpg" "-5" "0");
             Sharp.resizeOp :=
               Some (width, height,
                     {| Sharp.fit := Sharp.inside; Sharp.withoutEnlargement := true |});
             Sharp.output :=
               Some (encoderFor
                       (JS.toString (formatOf (sizedRequest "hero.jpg" "-5" "0")))
                       quality) |})
       (trace (snd (serve copySource (sizedRequest "hero.jpg" "-5" "0") coldWorld))).
Proof.
  apply (numeric_parameters_defaulted_or_passed copySource
           (sizedRequest "hero.jpg" "-5" "0") coldWorld).
  - left. reflexivity.
  - vm_compute. reflexivity.
Defined.

(** Out-of-range numbers are not clamped. *)
Example quality_99999_passed :
  qualityOf (pngRequest "hero.jpg" "99999") = 99999 /\
  Sharp.output (imageOf {| imageName := "hero.jpg"; query_width := JS.Str "-5";
                           query_height := JS.Undefined;
                           query_quality := JS.Str "99999";
                           query_format := JS.Str "webp" |})
  = Some (Sharp.webp 99999) /\
  Sharp.resizeOp (imageOf {| imageName := "hero.jpg"; query_width := JS.Str "-5";
                             query_height := JS.Undefined;
                             query_quality := JS.Str "99999";
                             query_format := JS.Str "webp" |})
  = Some (-5, 600, {| Sharp.fit := Sharp.inside; Sharp.withoutEnlargement := true |}).
Proof. repeat split; vm_compute; reflexivity. Qed.

(** ** png and quality *)

Section PngQuality.

Variable toBuffer : Sharp.Image -> gmap string Buffer -> option Buffer.
Local Abbreviation serve := (serve toBuffer).

(** C9: for png the quality takes no part in the transform.  Two
    requests for the same image, width and height, both png, build the
    same pipeline whatever their quality parameters, so the pipeline gives
    the same bytes or fails alike; and on a cache miss both get the same
    response, so no quality value turns a png request into an error. *)
Theorem png_quality_has_no_effect r1 r2 w :
  imageName r1 = imageName r2 ->
  widthOf r1 = widthOf r2 ->
  heightOf r1 = heightOf r2 ->
  formatOf r1 = JS.Str "png" ->
  formatOf r2 = JS.Str "png" ->
  imageOf r1 = imageOf r2 /\
  Sharp.output (imageOf r1) = Some Sharp.png /\
  toBuffer (imageOf r1) (files w) = toBuffer (imageOf r2) (files w) /\
  (files w !! cachePathOf r1 = None ->
   files w !! cachePathOf r2 = None ->
   fst (serve r1 w) = fst (serve r2 w)).
Proof.
  intros Hn Hw Hh Hf1 Hf2.
  assert (Himg : imageOf r1 = imageOf r2).
  { unfold imageOf. rewrite Hn, Hw, Hh, Hf1, Hf2. reflexivity. }
  assert (Hct : forall data, served r1 data = served r2 data).
  { intros data. unfold served, contentTypeOf. by rewrite Hf1, Hf2. }
  assert (Hv1 : JS.includes validFormats (formatOf r1) = true) by by rewrite Hf1.
  assert (Hv2 : JS.includes validFormats (formatOf r2) = true) by by rewrite Hf2.
  split; [done|]. split; [unfold imageOf; by rewrite Hf1|].
  split; [by rewrite Himg|].
  intros Hc1 Hc2.
  destruct (toBuffer (imageOf r1) (files w)) as [data|] eqn:Hp.
  2: { rewrite (serve_pipeline_failed toBuffer r1 w Hv1 Hc1 Hp).
       rewrite Himg in Hp.
       by rewrite (serve_pipeline_failed toBuffer r2 w Hv2 Hc2 Hp). }
  destruct (cacheWritable w) eqn:Hrw.
  - rewrite (serve_miss toBuffer r1 w data Hv1 Hc1 Hp Hrw).
    rewrite Himg in Hp.
    rewrite (serve_miss toBuffer r2 w data Hv2 Hc2 Hp Hrw). simpl. apply Hct.
  - rewrite (serve_write_failed toBuffer r1 w data Hv1 Hc1 Hp Hrw).
    rewrite Himg in Hp.
    by rewrite (serve_write_failed toBuffer r2 w data Hv2 Hc2 Hp Hrw).
Qed.

End PngQuality.

Lemma png_quality_has_no_effect_witness :
  imageOf (pngRequest "hero.jpg" "10") = imageOf (pngRequest "hero.jpg" "99999") /\
  Sharp.output (imageOf (pngRequest "hero.jpg" "10")) = Some Sharp.png /\
  copySource (imageOf (pngRequest "hero.jpg" "10")) (files coldWorld)
  = copySource (imageOf (pngRequest "hero.jpg" "99999")) (files coldWorld) /\
  (files coldWorld !! cachePathOf (pngRequest "hero.jpg" "10") = None ->
   files coldWorld !! cachePathOf (pngRequest "hero.jpg" "99999") = None ->
   fst (serve copySource (pngRequest "hero.jpg" "10") coldWorld)
   = fst (serve copySource (pngRequest "hero.jpg" "99999") coldWorld)).
Proof.
  apply (png_quality_has_no_effect copySource
           (pngRequest "hero.jpg" "10") (pngRequest "hero.jpg" "99999") coldWorld);
    reflexivity.
Defined.

(** Both png requests above do miss the cold cache and are answered 200
    with the same bytes, under different cache keys. *)
Example png_quality_example :
  files coldWorld !! cachePathOf (pngRequest "hero.jpg" "10") = None /\
  files coldWorld !! cachePathOf (pngRequest "hero.jpg" "99999") = None /\
  cacheKeyOf (pngRequest "hero.jpg" "10") <> cacheKeyOf (pngRequest "hero.jpg" "99999") /\
  fst (serve copySource (pngRequest "hero.jpg" "99999") coldWorld)
  = {| statusCode := 200; contentType := Some "image/png";
       sent := Some (Bytes jpegBytes) |}.
Proof. repeat split; vm_compute; (reflexivity || discriminate). Qed.

(** ** Resize geometry *)

(** [roundDiv p q] is within half a unit of [p / q]. *)
Lemma roundDiv_bounds p q :
  0 < q -> 2 * q * Sharp.roundDiv p q <= 2 * p + q < 2 * q * Sharp.roundDiv p q + 2 * q.
Proof.
  intros Hq. unfold Sharp.roundDiv.
  pose proof (Z.mul_div_le (2 * p + q) (2 * q) ltac:(lia)).
  pose proof (Z.mul_succ_div_gt (2 * p + q) (2 * q) ltac:(lia)).
  lia.
Qed.

(** The side computed from the limiting side: at least one pixel, within
    the bound [b] whenever the exact quotient is, and within one rounding
    of the exact quotient. *)
Lemma scaled_side p q b :
  0 < q -> 0 < p -> 1 <= b -> p <= b * q ->
  1 <= Z.max 1 (Sharp.roundDiv p q) <= b /\
  Z.abs (Z.max 1 (Sharp.roundDiv p q) * q - p) <= q.
Proof.
  intros Hq Hp Hb Hle.
  pose proof (roundDiv_bounds p q Hq) as [Hlo Hhi].
  set (r := Sharp.roundDiv p q) in *.
  assert (Hrb : r <= b) by nia.
  assert (Hr0 : 0 <= r) by nia.
  destruct (Z.max_spec 1 r) as [[Hlt ->]|[Hge ->]].
  - split; [lia|]. apply Z.abs_le. nia.
  - split; [lia|]. apply Z.abs_le.
    assert (r = 0 \/ r = 1) as [Hr|Hr] by lia; rewrite Hr in *; lia.
Qed.

Lemma fitInside_no_enlargement W H w h :
  0 < W -> 0 < H -> 0 < w -> 0 < h ->
  let '(ow, oh) := Sharp.fitInside true W H w h in
  1 <= ow <= w /\ 1 <= oh <= h /\ ow <= W /\ oh <= H /\
  Z.abs (ow * H - oh * W) <= Z.max W H /\
  (W <= w -> H <= h -> (ow, oh) = (W, H)).
Proof.
  intros HW HH Hw Hh. unfold Sharp.fitInside.
  destruct (Z.leb_spec W w) as [HWw|HWw], (Z.leb_spec H h) as [HHh|HHh]; simpl.
  1: { repeat split; try lia. }
  all: destruct (Z.leb_spec (w * H) (h * W)) as [Hlim|Hlim].
  all: try (exfalso; nia).
  - (* the source is too tall: the height limits *)
    destruct (scaled_side (W * h) H w HH ltac:(nia) ltac:(lia) ltac:(nia)) as [Hb Ha].
    destruct (scaled_side (W * h) H W HH ltac:(nia) ltac:(lia) ltac:(nia)) as [Hb' _].
    repeat split; lia.
  - (* the source is too wide: the width limits *)
    destruct (scaled_side (H * w) W h HW ltac:(nia) ltac:(lia) ltac:(nia)) as [Hb Ha].
    destruct (scaled_side (H * w) W H HW ltac:(nia) ltac:(lia) ltac:(nia)) as [Hb' _].
    repeat split; lia.
  - (* too wide and too tall, the width limits *)
    destruct (scaled_side (H * w) W h HW ltac:(nia) ltac:(lia) ltac:(nia)) as [Hb Ha].
    destruct (scaled_side (H * w) W H HW ltac:(nia) ltac:(lia) ltac:(nia)) as [Hb' _].
    repeat split; lia.
  - (* too wide and too tall, the height limits *)
    destruct (scaled_side (W * h) H w HH ltac:(nia) ltac:(lia) ltac:(nia)) as [Hb Ha].
    destruct (scaled_side (W * h) H W HH ltac:(nia) ltac:(lia) ltac:(nia)) as [Hb' _].
    repeat split; lia.
Qed.

(** The side computed from the limiting side is the whole number nearest
    to the exact quotient, or one pixel when the quotient is below half a
    pixel. *)
Lemma scaled_side_nearest p q :
  0 < q -> 0 < p ->
  2 * Z.abs (Z.max 1 (Sharp.roundDiv p q) * q - p) <= q \/
  (Z.max 1 (Sharp.roundDiv p q) = 1 /\ 2 * p < q).
Proof.
  intros Hq Hp.
  pose proof (roundDiv_bounds p q Hq) as [Hlo Hhi].
  set (r := Sharp.roundDiv p q) in *.
  assert (Hr0 : 0 <= r) by nia.
  destruct (Z.max_spec 1 r) as [[Hlt ->]|[Hge ->]].
  - left. assert (- q <= 2 * (r * q - p) <= q) by nia. lia.
  - assert (r = 0 \/ r = 1) as [Hr|Hr] by lia; rewrite Hr in *.
    + right. split; [reflexivity|lia].
    + left. lia.
Qed.

(** Which side of the box the output reaches: a source that fits keeps its
    dimensions; otherwise the side that limits the scale is the side of the
    box, and the other side is the source's scaled by the same ratio and
    rounded to a whole pixel. *)
Lemma fitInside_reaches_box W H w h :
  0 < W -> 0 < H -> 0 < w -> 0 < h ->
  let '(ow, oh) := Sharp.fitInside true W H w h in
  (W <= w /\ H <= h /\ ow = W /\ oh = H) \/
  (~ (W <= w /\ H <= h) /\ w * H <= h * W /\ ow = w /\
   (2 * Z.abs (oh * W - H * w) <= W \/ (oh = 1 /\ 2 * (H * w) < W))) \/
  (~ (W <= w /\ H <= h) /\ h * W < w * H /\ oh = h /\
   (2 * Z.abs (ow * H - W * h) <= H \/ (ow = 1 /\ 2 * (W * h) < H))).
Proof.
  intros HW HH Hw Hh. unfold Sharp.fitInside.
  destruct (Z.leb_spec W w) as [HWw|HWw], (Z.leb_spec H h) as [HHh|HHh]; simpl.
  1: { left. repeat split; lia. }
  all: destruct (Z.leb_spec (w * H) (h * W)) as [Hlim|Hlim]; cbv beta iota.
  all: try (exfalso; nia).
  all: right.
  all: first
         [ left; split; [lia|]; split; [lia|]; split; [reflexivity|];
           apply (scaled_side_nearest (H * w) W HW); nia
         | right; split; [lia|]; split; [lia|]; split; [reflexivity|];
           apply (scaled_side_nearest (W * h) H HH); nia ].
Qed.

(** C8: the pipeline the handler builds asks for the inside fit without
    enlargement.  For a source of [W x H] pixels and a requested box of
    positive width and height, the output fits in the box, is no larger
    than the source, keeps the aspect ratio up to the rounding of one side
    to a whole pixel, and is exactly [W x H] when the box is at least as
    large as the source.  When the source does not fit, the output is as
    large as the box allows: the side that limits the scale is the side of
    the box, and the other side is the source's side scaled by the same
    ratio, to the nearest pixel and at least one. *)
Theorem resize_fits_without_enlargement req W H :
  0 < W -> 0 < H -> 0 < widthOf req -> 0 < heightOf req ->
  exists ow oh,
    Sharp.outputDimensions W H (imageOf req) = Some (ow, oh) /\
    1 <= ow <= widthOf req /\ 1 <= oh <= heightOf req /\
    ow <= W /\ oh <= H /\
    Z.abs (ow * H - oh * W) <= Z.max W H /\
    (W <= widthOf req -> H <= heightOf req -> (ow, oh) = (W, H)) /\
    ((W <= widthOf req /\ H <= heightOf req /\ ow = W /\ oh = H) \/
     (~ (W <= widthOf req /\ H <= heightOf req) /\
      widthOf req * H <= heightOf req * W /\ ow = widthOf req /\
      (2 * Z.abs (oh * W - H * widthOf req) <= W \/
       (oh = 1 /\ 2 * (H * widthOf req) < W))) \/
     (~ (W <= widthOf req /\ H <= heightOf req) /\
      heightOf req * W < widthOf req * H /\ oh = heightOf req /\
      (2 * Z.abs (ow * H - W * heightOf req) <= H \/
       (ow = 1 /\ 2 * (W * heightOf req) < H)))).
Proof.
  intros HW HH Hw Hh.
  pose proof (fitInside_no_enlargement W H (widthOf req) (heightOf req) HW HH Hw Hh) as Hfit.
  pose proof (fitInside_reaches_box W H (widthOf req) (heightOf req) HW HH Hw Hh) as Hbox.
  change (Sharp.outputDimensions W H (imageOf req))
    with (Some (Sharp.fitInside true W H (widthOf req) (heightOf req))).
  destruct (Sharp.fitInside true W H (widthOf req) (heightOf req)) as [ow oh].
  exists ow, oh. split; [reflexivity|]. tauto.
Qed.

Lemma resize_fits_without_enlargement_witness :
  exists ow oh,
    Sharp.outputDimensions 1600 900 (imageOf (plainRequest "hero.jpg")) = Some (ow, oh) /\
    1 <= ow <= widthOf (plainRequest "hero.jpg") /\
    1 <= oh <= heightOf (plainRequest "hero.jpg") /\
    ow <= 1600 /\ oh <= 900 /\
    Z.abs (ow * 900 - oh * 1600) <= Z.max 1600 900 /\
    (1600 <= widthOf (plainRequest "hero.jpg") ->
     900 <= heightOf (plainRequest "hero.jpg") -> (ow, oh) = (1600, 900)) /\
    ((1600 <= widthOf (plainRequest "hero.jpg") /\
      900 <= heightOf (plainRequest "hero.jpg") /\ ow = 1600 /\ oh = 900) \/
     (~ (1600 <= widthOf (plainRequest "hero.jpg") /\
         900 <= heightOf (plainRequest "hero.jpg")) /\
      widthOf (plainRequest "hero.jpg") * 900
      <= heightOf (plainRequest "hero.jpg") * 1600 /\
      ow = widthOf (plainRequest "hero.jpg") /\
      (2 * Z.abs (oh * 1600 - 900 * widthOf (plainRequest "hero.jpg")) <= 1600 \/
       (oh = 1 /\ 2 * (900 * widthOf (plainRequest "hero.jpg")) < 1600))) \/
     (~ (1600 <= widthOf (plainRequest "hero.jpg") /\
         900 <= heightOf (plainRequest "hero.jpg")) /\
      heightOf (plainRequest "hero.jpg") * 1600
      < widthOf (plainRequest "hero.jpg") * 900 /\
      oh = heightOf (plainRequest "hero.jpg") /\
      (2 * Z.abs (ow * 900 - 1600 * heightOf (plainRequest "hero.jpg")) <= 900 \/
       (ow = 1 /\ 2 * (1600 * heightOf (plainRequest "hero.jpg")) < 900)))).
Proof.
  apply (resize_fits_without_enlargement (plainRequest "hero.jpg") 1600 900);
    reflexivity.
Defined.

(** A small source is left alone, a large one is scaled down into the
    default 800 x 600 box. *)
Example small_source_not_enlarged :
  Sharp.outputDimensions 640 480 (imageOf (plainRequest "hero.jpg")) = Some (640, 480).
Proof. reflexivity. Qed.

Example large_source_scaled_down :
  Sharp.outputDimensions 1600 900 (imageOf (plainRequest "hero.jpg")) = Some (800, 450).
Proof. reflexivity. Qed.

Example tall_source_scaled_down :
  Sharp.outputDimensions 1000 3000 (imageOf (plainRequest "hero.jpg")) = Some (200, 600).
Proof. reflexivity. Qed.

(** ** What a key collision does to the cache *)

(** After the image has been served at 12 x 3, the request for 1 x 23 is
    answered from the cache with the 12 x 3 bytes: the pipeline built for
    it differs, but it is not run. *)
Lemma collision_serves_other_size toBuffer w data :
  let a := sizedRequest "hero.jpg" "12" "3" in
  let b := sizedRequest "hero.jpg" "1" "23" in
  files w !! cachePathOf a = None ->
  toBuffer (imageOf a) (files w) = Some data ->
  cacheWritable w = true ->
  imageOf a <> imageOf b /\
  sent (fst (serve toBuffer b (snd (serve toBuffer a w)))) = Some (Bytes data) /\
  pipelineCalls (trace (snd (serve toBuffer b (snd (serve toBuffer a w)))))
  = pipelineCalls (trace (snd (serve toBuffer a w))).
Proof.
  intros a b Hc Hp Hw.
  assert (Hf : forall r, query_format r = JS.Undefined ->
                         JS.includes validFormats (formatOf r) = true).
  { intros r Hr. unfold formatOf. by rewrite Hr. }
  assert (Hkey : cacheKeyOf b = cacheKeyOf a).
  { unfold cacheKeyOf. apply generateCacheKey_glued. vm_compute. reflexivity. }
  assert (Hpath : cachePathOf b = cachePathOf a).
  { unfold cachePathOf. by rewrite Hkey. }
  split. { vm_compute. discriminate. }
  rewrite (serve_miss toBuffer a w data (Hf a eq_refl) Hc Hp Hw). cbn [fst snd].
  match goal with
  | |- context [serve toBuffer b ?w1] =>
      rewrite (serve_hit toBuffer b w1 data (Hf b eq_refl))
  end.
  - cbn [fst snd after trace stored sent served]. split; [reflexivity|].
    rewrite pipelineCalls_app.
    change (pipelineCalls [ReadFile (cachePathOf b)]) with 0%nat. lia.
  - rewrite Hpath. cbn [files stored]. apply lookup_insert_eq.
Qed.

(** ** [parseInt] and the digest on examples *)

Example parseInt_plain : JS.parseInt (JS.Str "1024") = Some 1024.
Proof. reflexivity. Qed.
Example parseInt_prefix : JS.parseInt (JS.Str "  12px") = Some 12.
Proof. reflexivity. Qed.
Example parseInt_hex : JS.parseInt (JS.Str "0x1F") = Some 31.
Proof. reflexivity. Qed.
Example parseInt_negative : JS.parseInt (JS.Str "-5") = Some (-5).
Proof. reflexivity. Qed.
Example parseInt_word : JS.parseInt (JS.Str "wide") = None.
Proof. reflexivity. Qed.
Example parseInt_absent : JS.parseInt JS.Undefined = None.
Proof. reflexivity. Qed.
Example parseInt_array : JS.parseInt (JS.Obj "640,480") = Some 640.
Proof. reflexivity. Qed.
Example parseInt_no_break_space :
  JS.parseInt (JS.Str (String "194" (String "160" "12"))) = Some 12.
Proof. reflexivity. Qed.
Example parseInt_byte_order_mark :
  JS.parseInt (JS.Str (String "239" (String "187" (String "191" " -7")))) = Some (-7).
Proof. reflexivity. Qed.
Example parseInt_other_wide_character :
  JS.parseInt (JS.Str (String "226" (String "130" (String "172" "12")))) = None.
Proof. reflexivity. Qed.
Example Number_toString_negative : JS.Number_toString (-12) = "-12".
Proof. reflexivity. Qed.
Example Number_toString_zero : JS.Number_toString 0 = "0".
Proof. reflexivity. Qed.
Example generateCacheKey_default :
  generateCacheKey "hero.jpg" 800 600 80 "jpg" = "c40a18270bc8e1241f80beeea53a4238.jpg".
Proof. vm_compute. reflexivity. Qed.

(** ** Replacing the first occurrence *)

Lemma append_nil_r (s : string) : s +:+ "" = s.
Proof. induction s as [|c s IH]; [reflexivity|]. by rewrite append_cons, IH. Qed.

Lemma splitFirst_unfold pat s :
  JSString.splitFirst pat s =
  match JSString.dropPrefix pat s with
  | Some rest => Some (EmptyString, rest)
  | None =>
      match s with
      | EmptyString => None
      | String c s' =>
          match JSString.splitFirst pat s' with
          | Some (pre, post) => Some (String c pre, post)
          | None => None
          end
      end
  end.
Proof. by destruct s. Qed.

Lemma dropPrefix_app pat s : JSString.dropPrefix pat (pat +:+ s) = Some s.
Proof.
  induction pat as [|a pat IH]; [reflexivity|].
  rewrite append_cons. simpl. by rewrite Ascii.eqb_refl.
Qed.

Lemma dropPrefix_Some pat s rest :
  JSString.dropPrefix pat s = Some rest -> s = pat +:+ rest.
Proof.
  revert s. induction pat as [|a pat IH]; intros s; simpl.
  - by intros [= ->].
  - destruct s as [|b s]; [discriminate|].
    destruct (Ascii.eqb_spec a b) as [->|]; [|discriminate].
    intros H. rewrite append_cons. f_equal. by apply IH.
Qed.

(** What [splitFirst] finds is an occurrence. *)
Lemma splitFirst_Some pat s pre post :
  JSString.splitFirst pat s = Some (pre, post) -> s = pre +:+ pat +:+ post.
Proof.
  revert pre. induction s as [|c s IH]; intros pre; rewrite splitFirst_unfold.
  - destruct (JSString.dropPrefix pat "") as [rest|] eqn:Hd; [|discriminate].
    intros [= <- <-]. by apply dropPrefix_Some in Hd.
  - destruct (JSString.dropPrefix pat (String c s)) as [rest|] eqn:Hd.
    + intros [= <- <-]. by apply dropPrefix_Some in Hd.
    + destruct (JSString.splitFirst pat s) as [[pre' post']|]; [|discriminate].
      intros [= <- <-]. rewrite append_cons. f_equal. by apply IH.
Qed.

(** A text that does not include the pattern has no occurrence of it. *)
Lemma includes_false_no_occurrence pat s pre post :
  JSString.includes pat s = false -> s <> pre +:+ pat +:+ post.
Proof.
  unfold JSString.includes. intros Hn ->.
  revert Hn. induction pre as [|c pre IH]; rewrite splitFirst_unfold.
  - change ("" +:+ pat +:+ post) with (pat +:+ post). by rewrite dropPrefix_app.
  - rewrite append_cons.
    destruct (JSString.dropPrefix pat _); [discriminate|].
    destruct (JSString.splitFirst pat (pre +:+ pat +:+ post)) as [[? ?]|];
      [discriminate|]. intros _. by apply IH.
Qed.

(** A prefix without the character [c] that fits on [x] followed by [c]
    fits on [x] alone. *)
Lemma dropPrefix_before_char c r x z t :
  JSString.hasChar c r = false ->
  JSString.dropPrefix r (x +:+ String c z) = Some t ->
  exists x', x = r +:+ x'.
Proof.
  revert x. induction r as [|d r IH]; intros x Hc Hd.
  - by exists x.
  - simpl in Hc. apply orb_false_iff in Hc as [Hcd Hcr].
    destruct x as [|e x].
    + change ("" +:+ String c z) with (String c z) in Hd. simpl in Hd.
      rewrite Ascii.eqb_sym, Hcd in Hd. discriminate.
    + rewrite append_cons in Hd. simpl in Hd.
      destruct (Ascii.eqb_spec d e) as [->|]; [|discriminate].
      destruct (IH x Hcr Hd) as [x' ->]. exists x'. by rewrite append_cons.
Qed.

(** When the pattern starts with a character it has nowhere else, its first
    occurrence after a text that does not include it is right after that
    text. *)
Lemma splitFirst_after c rest x y :
  JSString.hasChar c rest = false ->
  JSString.includes (String c rest) x = false ->
  JSString.splitFirst (String c rest) (x +:+ String c rest +:+ y) = Some (x, y).
Proof.
  intros Hc. unfold JSString.includes.
  induction x as [|e x IH]; intros Hx; rewrite splitFirst_unfold.
  - change ("" +:+ String c rest +:+ y) with (String c rest +:+ y).
    by rewrite dropPrefix_app.
  - rewrite splitFirst_unfold in Hx.
    destruct (JSString.dropPrefix (String c rest) (String e x)) eqn:Hd; [discriminate|].
    rewrite append_cons.
    destruct (JSString.dropPrefix (String c rest) (String e (x +:+ String c rest +:+ y)))
      as [t|] eqn:Hd'.
    + exfalso. simpl in Hd, Hd'.
      destruct (Ascii.eqb c e); [|discriminate].
      rewrite append_cons in Hd'.
      destruct (dropPrefix_before_char c rest x (rest +:+ y) t Hc Hd') as [x' ->].
      by rewrite dropPrefix_app in Hd.
    + destruct (JSString.splitFirst (String c rest) x) as [[? ?]|]; [discriminate|].
      by rewrite IH.
Qed.

Lemma expand_plain matched pre post r :
  JSString.hasDollar r = false -> JSString.expand matched pre post r = r.
Proof.
  induction r as [|d r IH]; [reflexivity|]. simpl.
  intros [Hd Hr]%orb_false_iff. rewrite Hd. f_equal. by apply IH.
Qed.

Lemma expand_app_plain matched pre post r1 r2 :
  JSString.hasDollar r1 = false ->
  JSString.expand matched pre post (r1 +:+ r2)
  = r1 +:+ JSString.expand matched pre post r2.
Proof.
  induction r1 as [|d r1 IH]; [reflexivity|]. simpl.
  intros [Hd Hr]%orb_false_iff. rewrite !append_cons. simpl. rewrite Hd.
  f_equal. by apply IH.
Qed.

(** One substitution step on a text where the placeholder first occurs
    after [x]. *)
Lemma replace_after c rest r x y :
  JSString.hasChar c rest = false ->
  JSString.includes (String c rest) x = false ->
  JSString.replace (String c rest) r (x +:+ String c rest +:+ y)
  = x +:+ JSString.expand (String c rest) x y r +:+ y.
Proof.
  intros Hc Hx. unfold JSString.replace. by rewrite splitFirst_after.
Qed.

Lemma replace_absent pat r s :
  JSString.includes pat s = false -> JSString.replace pat r s = s.
Proof.
  unfold JSString.includes, JSString.replace.
  by destruct (JSString.splitFirst pat s) as [[? ?]|].
Qed.

(** A pattern at the very start is the first occurrence. *)
Lemma replace_prefix pat r s :
  JSString.replace pat r (pat +:+ s) = JSString.expand pat "" s r +:+ s.
Proof.
  unfold JSString.replace. rewrite splitFirst_unfold, dropPrefix_app. reflexivity.
Qed.

(** ** More on cache keys *)

Lemma append_inj_length (a b c d : string) :
  String.length a = String.length c -> a +:+ b = c +:+ d -> a = c /\ b = d.
Proof.
  revert c. induction a as [|x a IH]; intros [|y c] Hlen Heq; try discriminate.
  - by split.
  - rewrite !append_cons in Heq. injection Heq as -> Heq.
    destruct (IH c) as [-> ->]; [by injection Hlen|done|done].
Qed.

Lemma hexDigit_allHex v :
  0 <= v < 16 -> JSString.hasChar (MD5.hexDigit v) "0123456789abcdef" = true.
Proof.
  intros Hv.
  assert (Hcases : v = 0 \/ v = 1 \/ v = 2 \/ v = 3 \/ v = 4 \/ v = 5 \/ v = 6 \/ v = 7 \/
                   v = 8 \/ v = 9 \/ v = 10 \/ v = 11 \/ v = 12 \/ v = 13 \/ v = 14 \/
                   v = 15) by lia.
  repeat (destruct Hcases as [->|Hcases]; [reflexivity|]). by subst v.
Qed.

Lemma hex_allHex bs :
  Forall (fun b => 0 <= b < 256) bs -> allHex (MD5.hex bs) = true.
Proof.
  induction 1 as [|b bs Hb _ IH]; [reflexivity|]. cbn [MD5.hex allHex].
  rewrite !hexDigit_allHex, IH; [done| |].
  - pose proof (Z.mod_pos_bound b 16). lia.
  - split; [apply Z.div_pos; lia | apply Z.div_lt_upper_bound; lia].
Qed.

Lemma le_bytes_range n x : Forall (fun b => 0 <= b < 256) (MD5.le_bytes n x).
Proof.
  revert x. induction n as [|n IH]; intros x; simpl; constructor; [|apply IH].
  change 255 with (Z.ones 8). rewrite Z.land_ones by lia.
  pose proof (Z.mod_pos_bound x (2 ^ 8)). lia.
Qed.

Lemma digest_range msg : Forall (fun b => 0 <= b < 256) (MD5.digest msg).
Proof.
  unfold MD5.digest. destruct (MD5.blocks _ _ _) as [a b c d].
  rewrite !Forall_app. repeat split; apply le_bytes_range.
Qed.

(** X1: A cache key is 32 lowercase hexadecimal digits, a dot and the format
    as given. *)
Theorem generateCacheKey_shape n w h q f :
  exists digest,
    generateCacheKey n w h q f = digest +:+ "." +:+ f /\
    String.length digest = 32%nat /\
    allHex digest = true.
Proof.
  eexists. split; [reflexivity|]. split; [apply md5hex_length|].
  apply hex_allHex, digest_range.
Qed.

(** X2: The format can be read back from the key: requests with equal keys
    have equal formats. *)
Theorem generateCacheKey_format_inj n1 w1 h1 q1 f1 n2 w2 h2 q2 f2 :
  generateCacheKey n1 w1 h1 q1 f1 = generateCacheKey n2 w2 h2 q2 f2 -> f1 = f2.
Proof.
  unfold generateCacheKey. intros Heq.
  apply append_inj_length in Heq as [_ Heq]; [|by rewrite !md5hex_length].
  rewrite !append_cons in Heq. by injection Heq.
Qed.


(** ** Where the cache is written *)

Lemma segments_no_slash s :
  JSString.hasChar "/" s = false -> Path.segments s = [s].
Proof.
  induction s as [|c s IH]; [reflexivity|]. cbn [JSString.hasChar Path.segments].
  intros [Hc Hs]%orb_false_iff. rewrite Ascii.eqb_sym, Hc, (IH Hs). reflexivity.
Qed.

Lemma hasChar_app c a b :
  JSString.hasChar c (a +:+ b) = JSString.hasChar c a || JSString.hasChar c b.
Proof.
  induction a as [|x a IH]; [reflexivity|].
  rewrite append_cons. cbn [JSString.hasChar]. by rewrite IH, orb_assoc.
Qed.

Lemma allHex_no_slash s : allHex s = true -> JSString.hasChar "/" s = false.
Proof.
  induction s as [|c s IH]; [reflexivity|]. cbn [allHex JSString.hasChar].
  intros [Hc Hs]%andb_true_iff. rewrite (IH Hs), orb_false_r.
  destruct (Ascii.eqb_spec "/" c) as [<-|]; [discriminate Hc|reflexivity].
Qed.

(** For a supported format the cache path resolves to the file named by
    the key, directly under [cache], whatever the image name is. *)
Lemma cachePath_resolves req :
  supported (formatOf req) ->
  Path.resolve (cachePathOf req) = ["cache"; cacheKeyOf req].
Proof.
  intros Hf. unfold cachePathOf.
  assert (Hslash : JSString.hasChar "/" (cacheKeyOf req) = false).
  { unfold cacheKeyOf, generateCacheKey, MD5.md5hex.
    rewrite !hasChar_app, (allHex_no_slash _ (hex_allHex _ (digest_range _))).
    by destruct Hf as [-> | [-> | [-> | ->]]]. }
  assert (Hlen : String.length (cacheKeyOf req) = (33 + String.length (JS.toString (formatOf req)))%nat)
    by apply generateCacheKey_length.
  unfold Path.resolve.
  change ("./cache/" +:+ cacheKeyOf req)
    with (String "." (String "/" (String "c" (String "a" (String "c" (String "h"
            (String "e" (String "/" (cacheKeyOf req))))))))).
  cbn [Path.segments Ascii.eqb Bool.eqb]. rewrite (segments_no_slash _ Hslash).
  cbn [fold_left]. unfold Path.walk at 3. cbn [String.eqb Ascii.eqb Bool.eqb orb].
  unfold Path.walk at 2. cbn [String.eqb Ascii.eqb Bool.eqb orb].
  unfold Path.walk.
  destruct (cacheKeyOf req) as [|c1 [|c2 [|c3 k]]]; try (simpl in Hlen; lia).
  assert (Hne : forall s : string,
             (String.length s < 3)%nat ->
             String.eqb (String c1 (String c2 (String c3 k))) s = false).
  { intros s Hs. apply String.eqb_neq. intros <-. simpl in Hs. lia. }
  rewrite !Hne by (simpl; lia). reflexivity.
Qed.

Section Writes.

Variable toBuffer : Sharp.Image -> gmap string Buffer -> option Buffer.
Local Abbreviation serve := (serve toBuffer).

(** What one request adds to the trace. *)
Lemma serve_trace_grows req w :
  exists evs,
    trace (snd (serve req w)) = (trace w ++ evs)%list /\
    (forall p d, In (WriteFile p d) evs ->
       p = cachePathOf req /\ JS.includes validFormats (formatOf req) = true /\
       sent (fst (serve req w)) = Some (Bytes d) \/
       p = cachePathOf req /\ JS.includes validFormats (formatOf req) = true /\
       statusCode (fst (serve req w)) = 500) /\
    (length (List.filter isPipeline evs) <= 1)%nat /\
    (length (List.filter isWrite evs) <= length (List.filter isPipeline evs))%nat /\
    (length (List.filter isRead evs) <= 2)%nat /\
    (statusCode (fst (serve req w)) = 500 <->
     exists e, In (ConsoleError e) evs).
Proof.
  destruct (JS.includes validFormats (formatOf req)) eqn:Hf.
  2: { rewrite (serve_invalid toBuffer req w Hf). exists []. simpl.
       rewrite app_nil_r. repeat split; try lia; try done.
       by intros [e []]. }
  destruct (files w !! cachePathOf req) as [data|] eqn:Hc.
  { rewrite (serve_hit toBuffer req w data Hf Hc). eexists. split; [reflexivity|].
    simpl. repeat split; try lia; try done.
    - by intros p d [|[]].
    - by intros [e [|[]]]. }
  destruct (toBuffer (imageOf req) (files w)) as [data|] eqn:Hp.
  2: { rewrite (serve_pipeline_failed toBuffer req w Hf Hc Hp).
       eexists. split; [reflexivity|]. simpl. repeat split; try lia; try done.
       - by intros p d [|[|[|[]]]].
       - intros _. eexists. right. right. by left. }
  destruct (cacheWritable w) eqn:Hw.
  - rewrite (serve_miss toBuffer req w data Hf Hc Hp Hw).
    eexists. split; [reflexivity|]. simpl. repeat split; try lia; try done.
    + intros p d [|[|[[= <- <-]|[]]]]; try done. by left.
    + by intros [e [|[|[|[]]]]].
  - rewrite (serve_write_failed toBuffer req w data Hf Hc Hp Hw).
    eexists. split; [reflexivity|]. simpl. repeat split; try lia; try done.
    + intros p d [|[|[[= <- <-]|[|[]]]]]; try done. by right.
    + intros _. eexists. do 3 right. by left.
Qed.

(** X3: Every file the handler writes is the request's cache file, and that
    path stays directly under [cache]: the image name, which goes into the
    source path as it is, only reaches the cache path through the digest. *)
Theorem writes_stay_in_cache req w p d :
  In (WriteFile p d) (trace (snd (serve req w))) ->
  In (WriteFile p d) (trace w) \/
  (p = cachePathOf req /\ Path.resolve p = ["cache"; cacheKeyOf req]
   /\ Path.inside ["cache"] p = true).
Proof.
  destruct (serve_trace_grows req w) as (evs & Htr & Hwr & _). rewrite Htr.
  intros [Hin|Hin]%in_app_or; [by left|right].
  assert (Hp : p = cachePathOf req /\ JS.includes validFormats (formatOf req) = true).
  { destruct (Hwr p d Hin) as [(? & ? & _)|(? & ? & _)]; by split. }
  destruct Hp as [-> Hf%includes_supported].
  pose proof (cachePath_resolves req Hf) as Hres.
  split; [done|]. split; [done|].
  unfold Path.inside. by rewrite Hres.
Qed.

(** X4: One request runs the pipeline at most once, writes at most once and
    only after running the pipeline, and reads at most twice (the cache
    entry and, through the pipeline, the source). *)
Theorem effects_per_request req w :
  (pipelineCalls (trace w) <= pipelineCalls (trace (snd (serve req w)))
   <= pipelineCalls (trace w) + 1)%nat /\
  (fileWrites (trace (snd (serve req w))) - fileWrites (trace w)
   <= pipelineCalls (trace (snd (serve req w))) - pipelineCalls (trace w))%nat /\
  (fileReads (trace (snd (serve req w))) <= fileReads (trace w) + 2)%nat.
Proof.
  destruct (serve_trace_grows req w) as (evs & Htr & _ & Hp & Hwp & Hr & _).
  rewrite Htr.
  unfold pipelineCalls, fileWrites, fileReads.
  rewrite !List.filter_app, !length_app. lia.
Qed.

(** X5: The handler logs an error exactly when it answers 500. *)
Theorem error_logged_iff_500 req w :
  statusCode (fst (serve req w)) = 500 <->
  (length (List.filter isConsoleError (trace w))
   < length (List.filter isConsoleError (trace (snd (serve req w)))))%nat.
Proof.
  destruct (serve_trace_grows req w) as (evs & Htr & _ & _ & _ & _ & Hlog).
  rewrite Htr.
  rewrite List.filter_app, length_app, Hlog. split.
  - intros [e He].
    assert (In (ConsoleError e) (List.filter isConsoleError evs))
      by (by apply List.filter_In).
    destruct (List.filter isConsoleError evs); [done|simpl; lia].
  - intros Hlt. destruct (List.filter isConsoleError evs) as [|ev l] eqn:Hfl;
      [simpl in Hlt; lia|].
    assert (Hin : In ev (List.filter isConsoleError evs)) by (rewrite Hfl; by left).
    apply List.filter_In in Hin as [Hin Hev]. destruct ev; try discriminate. by eexists.
Qed.

(** X6: A request changes no file but its own cache entry, and that one only
    from absent to present. *)
Theorem files_only_grow req w :
  (forall p, p <> cachePathOf req ->
     files (snd (serve req w)) !! p = files w !! p) /\
  (forall d, files w !! cachePathOf req = Some d ->
     files (snd (serve req w)) !! cachePathOf req = Some d).
Proof.
  destruct (JS.includes validFormats (formatOf req)) eqn:Hf.
  2: { by rewrite (serve_invalid toBuffer req w Hf). }
  destruct (files w !! cachePathOf req) as [data|] eqn:Hc.
  { rewrite (serve_hit toBuffer req w data Hf Hc). simpl.
    split; [done|]. by intros d [= <-]. }
  destruct (toBuffer (imageOf req) (files w)) as [data|] eqn:Hp.
  2: { rewrite (serve_pipeline_failed toBuffer req w Hf Hc Hp). simpl.
       split; [done|]. by intros d [=]. }
  destruct (cacheWritable w) eqn:Hw.
  - rewrite (serve_miss toBuffer req w data Hf Hc Hp Hw). simpl. split.
    + intros p Hne. by rewrite lookup_insert_ne.
    + by intros d [=].
  - rewrite (serve_write_failed toBuffer req w data Hf Hc Hp Hw). simpl.
    split; [done|]. by intros d [=].
Qed.

(** X7: The requests answered 200 are exactly those with a supported format
    and either a cache entry, or a pipeline that succeeds together with a
    cache that takes the write. *)
Theorem status_200_iff req w :
  statusCode (fst (serve req w)) = 200 <->
  supported (formatOf req) /\
  (is_Some (files w !! cachePathOf req) \/
   (is_Some (toBuffer (imageOf req) (files w)) /\ cacheWritable w = true)).
Proof.
  rewrite <- includes_supported.
  destruct (JS.includes validFormats (formatOf req)) eqn:Hf.
  2: { rewrite (serve_invalid toBuffer req w Hf). simpl. split; [done|]. by intros [? _]. }
  destruct (files w !! cachePathOf req) as [data|] eqn:Hc.
  { rewrite (serve_hit toBuffer req w data Hf Hc). simpl. split; [|done].
    intros _. split; [done|]. left. by eexists. }
  destruct (toBuffer (imageOf req) (files w)) as [data|] eqn:Hp.
  2: { rewrite (serve_pipeline_failed toBuffer req w Hf Hc Hp). simpl.
       split; [done|]. intros [_ [[? [=]]|[[? [=]] _]]]. }
  destruct (cacheWritable w) eqn:Hw.
  - rewrite (serve_miss toBuffer req w data Hf Hc Hp Hw). simpl. split; [|done].
    intros _. split; [done|]. right. split; [by eexists|done].
  - rewrite (serve_write_failed toBuffer req w data Hf Hc Hp Hw). simpl.
    split; [done|]. intros [_ [[? [=]]|[_ [=]]]].
Qed.

(** X8: A response is one of three: the image with its content type, the text
    "Invalid format", or the text "Image processing error."; an error
    response carries neither bytes nor any detail of what failed. *)
Theorem response_shapes req w :
  (exists data, fst (serve req w) = served req data) \/
  fst (serve req w) = invalidFormat \/
  fst (serve req w) = processingError.
Proof.
  destruct (JS.includes validFormats (formatOf req)) eqn:Hf.
  2: { rewrite (serve_invalid toBuffer req w Hf). auto. }
  destruct (files w !! cachePathOf req) as [data|] eqn:Hc.
  { rewrite (serve_hit toBuffer req w data Hf Hc). left. by eexists. }
  destruct (toBuffer (imageOf req) (files w)) as [data|] eqn:Hp.
  2: { rewrite (serve_pipeline_failed toBuffer req w Hf Hc Hp). auto. }
  destruct (cacheWritable w) eqn:Hw.
  - rewrite (serve_miss toBuffer req w data Hf Hc Hp Hw). left. by eexists.
  - rewrite (serve_write_failed toBuffer req w data Hf Hc Hp Hw). auto.
Qed.

(** X9: Serving the same request once more leaves the files as the first
    time left them. *)
Theorem files_settle_after_one_request req w :
  files (snd (serve req (snd (serve req w)))) = files (snd (serve req w)).
Proof.
  destruct (JS.includes validFormats (formatOf req)) eqn:Hf.
  2: { by rewrite !(serve_invalid toBuffer req _ Hf). }
  destruct (files w !! cachePathOf req) as [data|] eqn:Hc.
  { rewrite (serve_hit toBuffer req w data Hf Hc). cbn [snd].
    by rewrite (serve_hit toBuffer req (after w _) data Hf Hc). }
  destruct (toBuffer (imageOf req) (files w)) as [data|] eqn:Hp.
  2: { rewrite (serve_pipeline_failed toBuffer req w Hf Hc Hp). cbn [snd].
       by rewrite (serve_pipeline_failed toBuffer req (after w _) Hf Hc Hp). }
  destruct (cacheWritable w) eqn:Hw.
  - rewrite (serve_miss toBuffer req w data Hf Hc Hp Hw). cbn [snd].
    erewrite (serve_hit toBuffer req (stored _ _ _) data Hf); [done|].
    apply lookup_insert_eq.
  - rewrite (serve_write_failed toBuffer req w data Hf Hc Hp Hw). cbn [snd].
    by rewrite (serve_write_failed toBuffer req (after w _) data Hf Hc Hp Hw).
Qed.

End Writes.

(** X10: A cached entry is served without consulting the pipeline: whatever
    [sharp] would now make of the source, or if the source is gone, the
    response and the effects are the same. *)
Theorem cache_hit_ignores_pipeline toBuffer1 toBuffer2 req w data :
  supported (formatOf req) ->
  files w !! cachePathOf req = Some data ->
  serve toBuffer1 req w = serve toBuffer2 req w /\
  sent (fst (serve toBuffer1 req w)) = Some (Bytes data) /\
  pipelineCalls (trace (snd (serve toBuffer1 req w))) = pipelineCalls (trace w).
Proof.
  intros Hf%includes_supported Hc.
  rewrite (serve_hit toBuffer1 req w data Hf Hc), (serve_hit toBuffer2 req w data Hf Hc).
  repeat split. simpl. rewrite pipelineCalls_app.
  change (pipelineCalls [ReadFile (cachePathOf req)]) with 0%nat. lia.
Qed.

(** ** Numbers written in decimal *)

Lemma parseDigits_digits_acc d (p : positive) :
  JS.parseDigits 10 (NilEmpty.string_of_uint d) (Some (Z.pos p))
  = Some (Z.pos (Pos.of_uint_acc d p)).
Proof.
  revert p. induction d as [|d IH|d IH|d IH|d IH|d IH|d IH|d IH|d IH|d IH|d IH];
    intros p; [reflexivity|..];
    cbn [NilEmpty.string_of_uint JS.parseDigits Pos.of_uint_acc];
    match goal with
    | |- context [JS.digitValue 10 ?c] =>
        let v := eval vm_compute in (JS.digitValue 10 c) in
        change (JS.digitValue 10 c) with v
    end; cbn [default from_option id];
    match goal with
    | |- JS.parseDigits _ _ (Some ?a) = Some (Z.pos (Pos.of_uint_acc _ ?q)) =>
        replace a with (Z.pos q) by lia; apply IH
    end.
Qed.

Lemma parseDigits_digits d :
  JS.parseDigits 10 (NilEmpty.string_of_uint d) (Some 0)
  = Some (Z.of_N (Pos.of_uint d)).
Proof.
  induction d as [|d IH|d IH|d IH|d IH|d IH|d IH|d IH|d IH|d IH|d IH];
    [reflexivity|..];
    cbn [NilEmpty.string_of_uint JS.parseDigits Pos.of_uint];
    match goal with
    | |- context [JS.digitValue 10 ?c] =>
        let v := eval vm_compute in (JS.digitValue 10 c) in
        change (JS.digitValue 10 c) with v
    end; cbn [default from_option id]; [exact IH|..];
    match goal with
    | |- JS.parseDigits _ _ (Some ?a) = _ =>
        let v := eval vm_compute in a in change a with v
    end; by rewrite parseDigits_digits_acc.
Qed.

Lemma trimStart_digits d :
  JS.trimStart (NilEmpty.string_of_uint d) = NilEmpty.string_of_uint d.
Proof. by destruct d. Qed.

Lemma stripSign_digits d :
  JS.stripSign (NilEmpty.string_of_uint d) = (1, NilEmpty.string_of_uint d).
Proof. by destruct d. Qed.

Lemma stripHexPrefix_digits d :
  JS.stripHexPrefix (NilEmpty.string_of_uint d) = (10, NilEmpty.string_of_uint d).
Proof. destruct d as [|d|d|d|d|d|d|d|d|d|d]; try reflexivity. by destruct d. Qed.

Lemma parseDigits_from_nothing d :
  d <> Decimal.Nil ->
  JS.parseDigits 10 (NilEmpty.string_of_uint d) None
  = JS.parseDigits 10 (NilEmpty.string_of_uint d) (Some 0).
Proof. by destruct d. Qed.

(** On the digits of a number [parseInt] skips nothing and reads them all,
    with or without a minus sign in front. *)
Lemma parseInt_of_digits d :
  d <> Decimal.Nil ->
  JS.parseInt (JS.Str (NilEmpty.string_of_uint d)) = Some (Z.of_N (Pos.of_uint d)) /\
  JS.parseInt (JS.Str (String "-" (NilEmpty.string_of_uint d)))
  = Some (- Z.of_N (Pos.of_uint d)).
Proof.
  intros Hd. unfold JS.parseInt. cbn [JS.toString]. split.
  - rewrite trimStart_digits, stripSign_digits. cbv beta iota.
    rewrite stripHexPrefix_digits. cbv beta iota.
    rewrite (parseDigits_from_nothing d Hd), parseDigits_digits.
    f_equal; lia.
  - change (JS.trimStart (String "-" (NilEmpty.string_of_uint d)))
      with (String "-" (NilEmpty.string_of_uint d)).
    change (JS.stripSign (String "-" (NilEmpty.string_of_uint d)))
      with (-1, NilEmpty.string_of_uint d).
    cbv beta iota. rewrite stripHexPrefix_digits. cbv beta iota.
    rewrite (parseDigits_from_nothing d Hd), parseDigits_digits.
    f_equal; lia.
Qed.

(** The decimal text of an integer, as [toString] writes it into the cache
    key, is read back by [parseInt] as the same integer. *)
Lemma parseInt_Number_toString z :
  JS.parseInt (JS.Str (JS.Number_toString z)) = Some z.
Proof.
  unfold JS.Number_toString. destruct z as [|p|p]; [reflexivity|..];
    cbn [Z.to_int NilZero.string_of_int NilZero.string_of_uint];
    pose proof (DecimalPos.Unsigned.to_uint_nonnil p) as Hnil;
    destruct (parseInt_of_digits (Pos.to_uint p) Hnil) as [Hpos Hneg];
    rewrite DecimalPos.Unsigned.of_to in Hpos, Hneg;
    destruct (Pos.to_uint p); try done.
Qed.

(** X11: A width, height or quality given as the decimal digits of a non-zero
    integer of magnitude at most [2^53] reaches the pipeline as that
    integer, whatever its sign. *)
Theorem decimal_parameters_pass_through req w h q :
  query_width req = JS.Str (JS.Number_toString w) ->
  query_height req = JS.Str (JS.Number_toString h) ->
  query_quality req = JS.Str (JS.Number_toString q) ->
  exactNumber w -> exactNumber h -> exactNumber q ->
  w <> 0 -> h <> 0 -> q <> 0 ->
  widthOf req = w /\ heightOf req = h /\ qualityOf req = q /\
  Sharp.resizeOp (imageOf req)
  = Some (w, h, {| Sharp.fit := Sharp.inside; Sharp.withoutEnlargement := true |}).
Proof.
  intros Hw Hh Hq _ _ _ Hw0 Hh0 Hq0.
  assert (Hor : forall z d, z <> 0 ->
             JS.or_num (JS.parseInt (JS.Str (JS.Number_toString z))) d = z).
  { intros z d Hz. rewrite parseInt_Number_toString. unfold JS.or_num.
    by apply Z.eqb_neq in Hz as ->. }
  assert (Hwidth : widthOf req = w) by (unfold widthOf; by rewrite Hw, Hor).
  assert (Hheight : heightOf req = h) by (unfold heightOf; by rewrite Hh, Hor).
  assert (Hquality : qualityOf req = q) by (unfold qualityOf; by rewrite Hq, Hor).
  repeat split; try done. unfold imageOf. by rewrite Hwidth, Hheight.
Qed.







(** ** Witnesses for the cache properties *)

Lemma generateCacheKey_format_inj_witness :
  generateCacheKey "hero.jpg" 12 3 80 "jpg" = generateCacheKey "hero.jpg" 1 23 80 "jpg" /\
  "jpg" = "jpg".
Proof.
  assert (H : generateCacheKey "hero.jpg" 12 3 80 "jpg"
              = generateCacheKey "hero.jpg" 1 23 80 "jpg")
    by (by apply generateCacheKey_glued).
  split; [exact H|].
  exact (generateCacheKey_format_inj "hero.jpg" 12 3 80 "jpg" "hero.jpg" 1 23 80 "jpg" H).
Defined.

Lemma writes_stay_in_cache_witness :
  In (WriteFile (cachePathOf (plainRequest "../../etc/passwd")) passwdBytes)
    (trace leakyWorld) \/
  (cachePathOf (plainRequest "../../etc/passwd")
   = cachePathOf (plainRequest "../../etc/passwd") /\
   Path.resolve (cachePathOf (plainRequest "../../etc/passwd"))
   = ["cache"; cacheKeyOf (plainRequest "../../etc/passwd")] /\
   Path.inside ["cache"] (cachePathOf (plainRequest "../../etc/passwd")) = true).
Proof.
  apply (writes_stay_in_cache copySource (plainRequest "../../etc/passwd") leakyWorld
           (cachePathOf (plainRequest "../../etc/passwd")) passwdBytes).
  vm_compute. right. right. left. reflexivity.
Defined.

Lemma cache_hit_ignores_pipeline_witness :
  serve copySource (plainRequest "hero.jpg") warmWorld
  = serve brokenSharp (plainRequest "hero.jpg") warmWorld /\
  sent (fst (serve copySource (plainRequest "hero.jpg") warmWorld))
  = Some (Bytes jpegBytes) /\
  pipelineCalls (trace (snd (serve copySource (plainRequest "hero.jpg") warmWorld)))
  = pipelineCalls (trace warmWorld).
Proof.
  apply (cache_hit_ignores_pipeline copySource brokenSharp (plainRequest "hero.jpg")
           warmWorld jpegBytes).
  - left. reflexivity.
  - vm_compute. reflexivity.
Defined.

Lemma decimal_parameters_pass_through_witness :
  let req := {| imageName := "hero.jpg"; query_width := JS.Str "-5";
                query_height := JS.Str "1080"; query_quality := JS.Str "99999";
                query_format := JS.Undefined |} in
  widthOf req = -5 /\ heightOf req = 1080 /\ qualityOf req = 99999 /\
  Sharp.resizeOp (imageOf req)
  = Some (-5, 1080, {| Sharp.fit := Sharp.inside; Sharp.withoutEnlargement := true |}).
Proof.
  apply (decimal_parameters_pass_through
           {| imageName := "hero.jpg"; query_width := JS.Str "-5";
              query_height := JS.Str "1080"; query_quality := JS.Str "99999";
              query_format := JS.Undefined |} (-5) 1080 99999);
    first [reflexivity | discriminate | vm_compute; discriminate].
Defined.

(** ** Page assembly *)

Lemma assemble_unfold T h m hd f :
  Pages.assemble T h m hd f =
  JSString.replace "<!--app-footer-->" f
    (JSString.replace "<!--app-header-->" hd
       (JSString.replace "<!--app-html-->" m
          (JSString.replace "<!--app-head-->" h T))).
Proof. reflexivity. Qed.

(** X13: A template laid out as head, header, html, footer, each placeholder
    first occurring where the layout puts it, is filled with the four
    fragments when these have no dollar sign. *)
Theorem assemble_fills_template a b c d e h m hd f :
  JSString.includes "<!--app-head-->" a = false ->
  JSString.includes "<!--app-header-->" (a +:+ h +:+ b) = false ->
  JSString.includes "<!--app-html-->" (a +:+ h +:+ b +:+ "<!--app-header-->" +:+ c) = false ->
  JSString.includes "<!--app-footer-->" (a +:+ h +:+ b +:+ hd +:+ c +:+ m +:+ d) = false ->
  JSString.hasDollar h = false -> JSString.hasDollar m = false ->
  JSString.hasDollar hd = false -> JSString.hasDollar f = false ->
  Pages.assemble
    (a +:+ "<!--app-head-->" +:+ b +:+ "<!--app-header-->" +:+ c
       +:+ "<!--app-html-->" +:+ d +:+ "<!--app-footer-->" +:+ e)
    h m hd f
  = a +:+ h +:+ b +:+ hd +:+ c +:+ m +:+ d +:+ f +:+ e.
Proof.
  intros Ha Hhd Hm Hf Dh Dm Dhd Df. rewrite assemble_unfold.
  rewrite (replace_after "<" "!--app-head-->" h a _ eq_refl Ha), (expand_plain _ _ _ _ Dh).
  replace (a +:+ h +:+ b +:+ "<!--app-header-->" +:+ c +:+ "<!--app-html-->"
             +:+ d +:+ "<!--app-footer-->" +:+ e)
    with ((a +:+ h +:+ b +:+ "<!--app-header-->" +:+ c) +:+ "<!--app-html-->"
            +:+ d +:+ "<!--app-footer-->" +:+ e)
    by (by rewrite !append_assoc).
  rewrite (replace_after "<" "!--app-html-->" m _ _ eq_refl Hm), (expand_plain _ _ _ _ Dm).
  replace ((a +:+ h +:+ b +:+ "<!--app-header-->" +:+ c) +:+ m
             +:+ d +:+ "<!--app-footer-->" +:+ e)
    with ((a +:+ h +:+ b) +:+ "<!--app-header-->" +:+ c +:+ m
            +:+ d +:+ "<!--app-footer-->" +:+ e)
    by (by rewrite !append_assoc).
  rewrite (replace_after "<" "!--app-header-->" hd _ _ eq_refl Hhd), (expand_plain _ _ _ _ Dhd).
  replace ((a +:+ h +:+ b) +:+ hd +:+ c +:+ m +:+ d +:+ "<!--app-footer-->" +:+ e)
    with ((a +:+ h +:+ b +:+ hd +:+ c +:+ m +:+ d) +:+ "<!--app-footer-->" +:+ e)
    by (by rewrite !append_assoc).
  rewrite (replace_after "<" "!--app-footer-->" f _ _ eq_refl Hf), (expand_plain _ _ _ _ Df).
  by rewrite !append_assoc.
Qed.

Lemma assemble_fills_template_witness :
  Pages.assemble
    ("<head>" +:+ "<!--app-head-->" +:+ "</head><body>" +:+ "<!--app-header-->"
       +:+ "<main>" +:+ "<!--app-html-->" +:+ "</main>" +:+ "<!--app-footer-->"
       +:+ "</body>")
    "<title>Product</title>" "<h1>Product</h1>" "<nav>Shop</nav>" "<small>Shop</small>"
  = "<head>" +:+ "<title>Product</title>" +:+ "</head><body>" +:+ "<nav>Shop</nav>"
      +:+ "<main>" +:+ "<h1>Product</h1>" +:+ "</main>" +:+ "<small>Shop</small>"
      +:+ "</body>".
Proof.
  apply (assemble_fills_template "<head>" "</head><body>" "<main>" "</main>" "</body>");
    vm_compute; reflexivity.
Defined.

(** X14: A template with none of the four placeholders is sent as it is: the
    rendered fragments are dropped without an error. *)
Theorem assemble_without_placeholders T h m hd f :
  JSString.includes "<!--app-head-->" T = false ->
  JSString.includes "<!--app-html-->" T = false ->
  JSString.includes "<!--app-header-->" T = false ->
  JSString.includes "<!--app-footer-->" T = false ->
  Pages.assemble T h m hd f = T.
Proof.
  intros H1 H2 H3 H4. rewrite assemble_unfold.
  by rewrite (replace_absent _ h T H1), (replace_absent _ m T H2),
       (replace_absent _ hd T H3), (replace_absent _ f T H4).
Qed.

Lemma assemble_without_placeholders_witness :
  Pages.assemble "<html><body></body></html>" "<title>x</title>" "<h1>x</h1>" "" ""
  = "<html><body></body></html>".
Proof. apply assemble_without_placeholders; vm_compute; reflexivity. Defined.

(** X15: Rendered content is searched for the later placeholders: when the head
    fragment carries the html placeholder, the page body lands inside the
    head fragment and the placeholder of the template stays. *)
Theorem assemble_placeholder_in_fragment a b h1 h2 m :
  JSString.includes "<!--app-head-->" a = false ->
  JSString.includes "<!--app-html-->" (a +:+ h1) = false ->
  JSString.includes "<!--app-header-->"
    (a +:+ h1 +:+ m +:+ h2 +:+ b +:+ "<!--app-html-->") = false ->
  JSString.includes "<!--app-footer-->"
    (a +:+ h1 +:+ m +:+ h2 +:+ b +:+ "<!--app-html-->") = false ->
  JSString.hasDollar (h1 +:+ "<!--app-html-->" +:+ h2) = false ->
  JSString.hasDollar m = false ->
  Pages.assemble (a +:+ "<!--app-head-->" +:+ b +:+ "<!--app-html-->")
    (h1 +:+ "<!--app-html-->" +:+ h2) m "" ""
  = a +:+ h1 +:+ m +:+ h2 +:+ b +:+ "<!--app-html-->".
Proof.
  intros Ha Hm Hhd Hf Dh Dm. rewrite assemble_unfold.
  rewrite (replace_after "<" "!--app-head-->" _ a _ eq_refl Ha), (expand_plain _ _ _ _ Dh).
  replace (a +:+ (h1 +:+ "<!--app-html-->" +:+ h2) +:+ b +:+ "<!--app-html-->")
    with ((a +:+ h1) +:+ "<!--app-html-->" +:+ h2 +:+ b +:+ "<!--app-html-->")
    by (by rewrite !append_assoc).
  rewrite (replace_after "<" "!--app-html-->" m _ _ eq_refl Hm), (expand_plain _ _ _ _ Dm).
  rewrite !append_assoc.
  by rewrite (replace_absent _ _ _ Hhd), (replace_absent _ _ _ Hf).
Qed.

Lemma assemble_placeholder_in_fragment_witness :
  Pages.assemble ("<head>" +:+ "<!--app-head-->" +:+ "</head><main>" +:+ "<!--app-html-->")
    ("<title>" +:+ "<!--app-html-->" +:+ "</title>") "<h1>Shoes</h1>" "" ""
  = "<head>" +:+ "<title>" +:+ "<h1>Shoes</h1>" +:+ "</title>" +:+ "</head><main>"
      +:+ "<!--app-html-->".
Proof.
  apply (assemble_placeholder_in_fragment "<head>" "</head><main>" "<title>" "</title>");
    vm_compute; reflexivity.
Defined.

(** X16: Dollar patterns in rendered content are interpreted: in the footer
    fragment, [$&] brings the placeholder back and [$$] is a single dollar
    sign. *)
Theorem assemble_dollar_patterns x y r1 r2 r3 h m hd :
  JSString.includes "<!--app-head-->" (x +:+ "<!--app-footer-->" +:+ y) = false ->
  JSString.includes "<!--app-html-->" (x +:+ "<!--app-footer-->" +:+ y) = false ->
  JSString.includes "<!--app-header-->" (x +:+ "<!--app-footer-->" +:+ y) = false ->
  JSString.includes "<!--app-footer-->" x = false ->
  JSString.hasDollar r1 = false -> JSString.hasDollar r2 = false ->
  JSString.hasDollar r3 = false ->
  Pages.assemble (x +:+ "<!--app-footer-->" +:+ y) h m hd
    (r1 +:+ "$&" +:+ r2 +:+ "$$" +:+ r3)
  = x +:+ r1 +:+ "<!--app-footer-->" +:+ r2 +:+ "$" +:+ r3 +:+ y.
Proof.
  intros H1 H2 H3 Hx D1 D2 D3. rewrite assemble_unfold.
  rewrite (replace_absent _ h _ H1), (replace_absent _ m _ H2), (replace_absent _ hd _ H3).
  rewrite (replace_after "<" "!--app-footer-->" _ x y eq_refl Hx).
  rewrite (expand_app_plain _ _ _ r1 _ D1).
  change ("$&" +:+ r2 +:+ "$$" +:+ r3) with (String "$" (String "&" (r2 +:+ "$$" +:+ r3))).
  cbn [JSString.expand Ascii.eqb Bool.eqb]. 
  rewrite (expand_app_plain _ _ _ r2 _ D2).
  change ("$$" +:+ r3) with (String "$" (String "$" r3)).
  cbn [JSString.expand Ascii.eqb Bool.eqb].
  rewrite (expand_plain _ _ _ r3 D3).
  by rewrite !append_assoc.
Qed.

Lemma assemble_dollar_patterns_witness :
  Pages.assemble ("<body>" +:+ "<!--app-footer-->" +:+ "</body>") "" "" ""
    ("Price " +:+ "$&" +:+ " in US" +:+ "$$" +:+ ".")
  = "<body>" +:+ "Price " +:+ "<!--app-footer-->" +:+ " in US" +:+ "$" +:+ "." +:+ "</body>".
Proof.
  apply (assemble_dollar_patterns "<body>" "</body>" "Price " " in US" "." "" "" "");
    vm_compute; reflexivity.
Defined.

(** ** [loadPage] *)

(** The answer of the surroundings that the computation [t] waits for. *)
Ltac waiting_for t :=
  lazymatch t with
  | (?a, _) => waiting_for a
  | match ?x with _ => _ end => waiting_for x
  | ?m ?a =>
      lazymatch m with
      | match ?x with _ => _ end => waiting_for x
      | _ => t
      end
  | _ => t
  end.

(** Unfolds a page request in [H] up to the answers of the surroundings. *)
Ltac open_page H :=
  cbv beta iota zeta delta
    [Pages.run Pages.loadPage Pages.homeRoute Pages.productRoute
     Pages.categoryRoute Pages.try_catch Pages.bind
     Pages.fs_readFile Pages.vite_transformIndexHtml Pages.vite_ssrLoadModule
     Pages.call Pages.headOrEmpty Pages.htmlOrEmpty Pages.answer Pages.emit
     Pages.res_status Pages.res_set_ContentType Pages.res_send Pages.setRes
     Pages.ret Pages.throw Pages.ssrManifest Pages.trace Pages.res
     fst snd negb app freshRes statusCode contentType sent] in H.

(** Runs a page request in [H : Pages.run .. = _], splitting on each answer
    of the surroundings in the order it is asked for. *)
Ltac run_page H :=
  repeat
    (open_page H;
     lazymatch type of H with
     | ?l = _ =>
         let x := waiting_for l in
         lazymatch x with
         | Build_Res _ _ _ => fail
         | _ => destruct x eqn:?
         end
     end).

(** The list [l] without its last two elements. *)
Ltac all_but_last2 l :=
  lazymatch l with
  | [_; _] => constr:(@nil Pages.Event)
  | ?x :: ?l' => let p := all_but_last2 l' in constr:(x :: p)
  end.

Section LoadPage.

Variable env : Pages.Env.

(** X17: In production every page request is answered 500 with a fixed text,
    and nothing is read, transformed, loaded or rendered. *)
Theorem loadPage_production template originalUrl params :
  Pages.isProduction env = true ->
  Pages.run (Pages.loadPage env template originalUrl params)
  = ({| statusCode := 500; contentType := None;
        sent := Some (Text "Production Mode not implemented yet") |},
     [Pages.ConsoleLog "Production Mode not implemented yet"]).
Proof.
  intros Hp.
  destruct (Pages.run _) as [r t] eqn:Hrun.
  open_page Hrun. rewrite Hp in Hrun. run_page Hrun. by injection Hrun as <- <-.
Qed.

(** X18: In development a page request is answered 200 with an HTML page, or
    500 with the stack of the error that stopped it, after
    [ssrFixStacktrace], which is also the last thing logged. *)
Theorem loadPage_development_outcome template originalUrl params :
  Pages.isProduction env = false ->
  let r := fst (Pages.run (Pages.loadPage env template originalUrl params)) in
  let t := snd (Pages.run (Pages.loadPage env template originalUrl params)) in
  (statusCode r = 200 /\ contentType r = Some "text/html" /\
   exists page, sent r = Some (Text page)) \/
  (statusCode r = 500 /\ contentType r = None /\
   exists e t',
     sent r = Some (Text (Pages.stack (Pages.ssrFixStacktrace env e))) /\
     t = (t' ++ [Pages.FixStacktrace e;
                 Pages.ConsoleLog (Pages.stack (Pages.ssrFixStacktrace env e))])%list).
Proof.
  intros Hp.
  destruct (Pages.run _) as [r t] eqn:Hrun. cbn [fst snd].
  open_page Hrun. rewrite Hp in Hrun. run_page Hrun; injection Hrun as <- <-.
  all: try (left; repeat split; eexists; reflexivity).
  all: right; repeat split; eexists;
    match goal with
    | |- exists t', _ /\ ?l = _ => let p := all_but_last2 l in exists p
    end; split; reflexivity.
Qed.

(** X19: The files and modules of a page request are asked for in a fixed
    order, stopping at the first that fails: the index page, the template
    of the page, its module, the header module and the footer module. *)
Theorem loadPage_asks_in_order template originalUrl params :
  Pages.pathsAsked (snd (Pages.run (Pages.loadPage env template originalUrl params)))
  `prefix_of`
  [ "./index.html";
    "./src/edge-delivery/" +:+ template +:+ "/" +:+ template +:+ ".html";
    "./src/edge-delivery/" +:+ template +:+ "/" +:+ template +:+ ".js";
    "./src/edge-delivery/blocks_ssr/header/header.js";
    "./src/edge-delivery/blocks_ssr/footer/footer.js" ].
Proof.
  destruct (Pages.run _) as [r t] eqn:Hrun. cbn [snd].
  run_page Hrun; injection Hrun as <- <-;
    cbn [Pages.pathsAsked flat_map app]; by eexists.
Qed.

(** X20: No [render] function is ever given a manifest: the manifest is only
    read in production, where nothing is rendered. *)
Theorem loadPage_renders_without_manifest template originalUrl params :
  Forall (fun m => m = None)
    (Pages.manifestsGiven
       (snd (Pages.run (Pages.loadPage env template originalUrl params)))).
Proof.
  destruct (Pages.run _) as [r t] eqn:Hrun. cbn [snd].
  run_page Hrun; injection Hrun as <- <-;
    cbn [Pages.manifestsGiven flat_map app]; by repeat constructor.
Qed.

(** X21: When the requested url starts with the base, [vite] and the [render]
    functions are given what follows the base. *)
Theorem loadPage_url_without_base template rest params :
  Forall (fun u => u = rest)
    (Pages.urlsGiven
       (snd (Pages.run
               (Pages.loadPage env template (Pages.base env +:+ rest) params)))).
Proof.
  assert (Hurl : JSString.replace (Pages.base env) "" (Pages.base env +:+ rest) = rest)
    by (by rewrite replace_prefix).
  destruct (Pages.run _) as [r t] eqn:Hrun. cbn [snd].
  run_page Hrun; injection Hrun as <- <-;
    cbn [Pages.urlsGiven flat_map app];
    repeat (constructor; [exact Hurl|]); constructor.
Qed.

(** X22: A category page is a product page: the category route asks for the
    product template and the product module, never for a category one, and
    the slug is handed to [render] under the name [id]. *)
Theorem categoryRoute_renders_product slug originalUrl :
  Pages.pathsAsked (snd (Pages.run (Pages.categoryRoute env slug originalUrl)))
  `prefix_of`
  [ "./index.html";
    "./src/edge-delivery/product/product.html";
    "./src/edge-delivery/product/product.js";
    "./src/edge-delivery/blocks_ssr/header/header.js";
    "./src/edge-delivery/blocks_ssr/footer/footer.js" ] /\
  Forall (fun ps => ps = None \/ ps = Some [("id", slug)])
    (Pages.paramsGiven (snd (Pages.run (Pages.categoryRoute env slug originalUrl)))).
Proof.
  destruct (Pages.run _) as [r t] eqn:Hrun. cbn [snd].
  run_page Hrun; injection Hrun as <- <-;
    cbn [Pages.pathsAsked Pages.paramsGiven flat_map app];
    (split;
     [by eexists
     |repeat (apply List.Forall_cons; [by auto|]); apply List.Forall_nil]).
Qed.

(** X23: When the files are there and [vite], the modules and their [render]
    functions all answer, the page is sent with status 200 as text/html:
    the transformed index page with the four fragments substituted, a
    missing [head] or [html] counting as empty.  The page [render] is given
    the transformed page template and the route parameters, the header and
    footer [render] neither. *)
Theorem loadPage_success template originalUrl params
    T0 T PT0 PT render headerRender footerRender rendered header footer :
  Pages.isProduction env = false ->
  Pages.textFiles env !! "./index.html" = Some T0 ->
  Pages.transformIndexHtml env (JSString.replace (Pages.base env) "" originalUrl) T0
  = inr T ->
  Pages.textFiles env
    !! ("./src/edge-delivery/" +:+ template +:+ "/" +:+ template +:+ ".html")
  = Some PT0 ->
  Pages.transformIndexHtml env (JSString.replace (Pages.base env) "" originalUrl) PT0
  = inr PT ->
  Pages.ssrLoadModule env
    ("./src/edge-delivery/" +:+ template +:+ "/" +:+ template +:+ ".js")
  = inr (Some render) ->
  render (JSString.replace (Pages.base env) "" originalUrl) None (Some PT) (Some params)
  = inr (Some rendered) ->
  Pages.ssrLoadModule env "./src/edge-delivery/blocks_ssr/header/header.js"
  = inr (Some headerRender) ->
  headerRender (JSString.replace (Pages.base env) "" originalUrl) None None None
  = inr (Some header) ->
  Pages.ssrLoadModule env "./src/edge-delivery/blocks_ssr/footer/footer.js"
  = inr (Some footerRender) ->
  footerRender (JSString.replace (Pages.base env) "" originalUrl) None None None
  = inr (Some footer) ->
  fst (Pages.run (Pages.loadPage env template originalUrl params))
  = {| statusCode := 200; contentType := Some "text/html";
       sent := Some (Text (Pages.assemble T
                             (default "" (Pages.head rendered))
                             (default "" (Pages.html rendered))
                             (default "" (Pages.html header))
                             (default "" (Pages.html footer)))) |}.
Proof.
  intros Hp H1 H2 H3 H4 H5 H6 H7 H8 H9 H10.
  destruct (Pages.run _) as [r t] eqn:Hrun. cbn [fst].
  open_page Hrun.
  rewrite Hp in Hrun; open_page Hrun.
  rewrite H1 in Hrun; open_page Hrun.
  rewrite H2 in Hrun; open_page Hrun.
  rewrite H3 in Hrun; open_page Hrun.
  rewrite H4 in Hrun; open_page Hrun.
  rewrite H5 in Hrun; open_page Hrun.
  rewrite H6 in Hrun; open_page Hrun.
  rewrite H7 in Hrun; open_page Hrun.
  rewrite H8 in Hrun; open_page Hrun.
  rewrite H9 in Hrun; open_page Hrun.
  rewrite H10 in Hrun; open_page Hrun.
  by injection Hrun as <- <-.
Qed.

End LoadPage.

Lemma loadPage_production_witness :
  Pages.run (Pages.loadPage sampleProduction "product" "/p/sku-1" [("sku", "sku-1")])
  = ({| statusCode := 500; contentType := None;
        sent := Some (Text "Production Mode not implemented yet") |},
     [Pages.ConsoleLog "Production Mode not implemented yet"]).
Proof. apply (loadPage_production sampleProduction). reflexivity. Defined.

Lemma loadPage_development_outcome_witness :
  let r := fst (Pages.run (Pages.loadPage sampleEnv "home" "/" [])) in
  let t := snd (Pages.run (Pages.loadPage sampleEnv "home" "/" [])) in
  (statusCode r = 200 /\ contentType r = Some "text/html" /\
   exists page, sent r = Some (Text page)) \/
  (statusCode r = 500 /\ contentType r = None /\
   exists e t',
     sent r = Some (Text (Pages.stack (Pages.ssrFixStacktrace sampleEnv e))) /\
     t = (t' ++ [Pages.FixStacktrace e;
                 Pages.ConsoleLog (Pages.stack (Pages.ssrFixStacktrace sampleEnv e))])%list).
Proof. apply (loadPage_development_outcome sampleEnv "home" "/" []). reflexivity. Defined.

Lemma loadPage_success_witness :
  fst (Pages.run (Pages.loadPage sampleEnv "product" "/p/sku-1" [("sku", "sku-1")]))
  = {| statusCode := 200; contentType := Some "text/html";
       sent := Some (Text (Pages.assemble sampleIndex
                             "<title>Product</title>" "<h1>Product</h1>"
                             "<nav>Shop</nav>" "<small>Shop</small>")) |}.
Proof.
  apply (loadPage_success sampleEnv "product" "/p/sku-1" [("sku", "sku-1")]
           sampleIndex sampleIndex "<h1>Product</h1>" "<h1>Product</h1>"
           sampleProductRender sampleHeaderRender sampleFooterRender
           {| Pages.head := Some "<title>Product</title>";
              Pages.html := Some "<h1>Product</h1>" |}
           {| Pages.head := None; Pages.html := Some "<nav>Shop</nav>" |}
           {| Pages.head := None; Pages.html := Some "<small>Shop</small>" |});
    reflexivity.
Defined.

(** The failing home page of the sample server: its template is missing,
    and the client is sent the error text. *)
Example home_page_error_sent :
  fst (Pages.run (Pages.homeRoute sampleEnv "/"))
  = {| statusCode := 500; contentType := None;
       sent := Some (Text "Error: ENOENT ./src/edge-delivery/home/home.html") |}.
Proof. vm_compute. reflexivity. Qed.

(** The category route asks for the product template and module. *)
Example category_route_uses_product_template :
  Pages.pathsAsked (snd (Pages.run (Pages.categoryRoute sampleEnv "shoes" "/c/shoes")))
  = [ "./index.html";
      "./src/edge-delivery/product/product.html";
      "./src/edge-delivery/product/product.js";
      "./src/edge-delivery/blocks_ssr/header/header.js";
      "./src/edge-delivery/blocks_ssr/footer/footer.js" ].
Proof. vm_compute. reflexivity. Qed.
